(** * Viewer.tsx: the asset-loading and scene-fitting pipeline

    A shallow embedding of [src/components/Viewer.tsx] (the React component
    that loads [capsule0.jpg], [capsule.mtl] and [capsule.obj] with three.js,
    centres the model, frames the camera and reports model statistics).

    Conventions of the embedding.
    - A JavaScript [number] that holds a length or a spatial quantity is a
      real ([R]).  Vertex and material counts, which the source only ever
      increments by buffer lengths, are naturals.  The face count, which
      the source obtains with the JavaScript division [/] and sums with
      [+=], is a binary64 float ([PrimFloat.float]) with the division and
      the additions of IEEE 754.
    - Object identity ([Set] membership of materials) is a reference
      ([MaterialRef]); [new THREE.MeshPhongMaterial] allocates a fresh one.
    - The [debug] log of the component is write-only and is left out.
    - A loader call is a request appended to the [requests] log; what the
      network answers is the environment ([Env]) of a run. *)

From Stdlib Require Import Reals Lra ZArith Lia String List.
From Stdlib Require Floats.
From stdpp Require Import base option list countable gmap.
From stdpp Require strings.

Import ListNotations.

#[local] Set Warnings "-clear-no-such-hyp".

(** ** The part of three.js the component uses *)

Module THREE.

Local Open Scope R_scope.

Record Vector3 : Type := mkVector3 { x : R; y : R; z : R }.

(** [Vector3.sub], [Vector3.add] *)
Definition sub (a b : Vector3) : Vector3 :=
  mkVector3 (x a - x b) (y a - y b) (z a - z b).

Definition add (a b : Vector3) : Vector3 :=
  mkVector3 (x a + x b) (y a + y b) (z a + z b).

Definition origin : Vector3 := mkVector3 0 0 0.

(** [Box3]: [Box3_empty] is the box of [makeEmpty] (min = +Infinity,
    max = -Infinity), which [R] cannot hold as coordinates. *)
Inductive Box3 : Type :=
| Box3_empty
| Box3_mk (min max : Vector3).

Definition expandByPoint (b : Box3) (p : Vector3) : Box3 :=
  match b with
  | Box3_empty => Box3_mk p p
  | Box3_mk lo hi =>
      Box3_mk (mkVector3 (Rmin (x lo) (x p)) (Rmin (y lo) (y p)) (Rmin (z lo) (z p)))
              (mkVector3 (Rmax (x hi) (x p)) (Rmax (y hi) (y p)) (Rmax (z hi) (z p)))
  end.

(** [Box3.getCenter]: the origin for an empty box, else (min + max) / 2. *)
Definition getCenter (b : Box3) : Vector3 :=
  match b with
  | Box3_empty => origin
  | Box3_mk lo hi =>
      mkVector3 ((x lo + x hi) * / 2) ((y lo + y hi) * / 2) ((z lo + z hi) * / 2)
  end.

(** [Box3.getSize]: zero for an empty box, else max - min. *)
Definition getSize (b : Box3) : Vector3 :=
  match b with
  | Box3_empty => origin
  | Box3_mk lo hi => sub hi lo
  end.

(** A [BufferGeometry]: the optional index buffer ([getIndex ()], null
    when absent) and the optional ['position'] attribute, one entry per
    vertex; [count] of either is the length of the list. *)
Record BufferGeometry : Type := mkBufferGeometry {
  index : option (list nat);
  position_attr : option (list Vector3)
}.

(** A loaded image; only its identity matters here. *)
Record Texture : Type := mkTexture { image : string }.

(** The options passed to [new THREE.MeshPhongMaterial ({...})]. *)
Record PhongParams : Type := mkPhongParams {
  p_color : option N;
  p_map : option Texture;
  p_shininess : option nat;
  p_transparent : option bool;
  p_opacity : option R
}.

(** The identity of whatever a mesh's [material] property holds: an
    object made by the loaders, or the [serial]-th
    [MeshPhongMaterial] the component itself has constructed. *)
Inductive MaterialRef : Type :=
| FromLoader (id : positive)
| MeshPhongMaterial (serial : nat).

#[global] Instance MaterialRef_eq_dec : EqDecision MaterialRef.
Proof. solve_decision. Defined.

#[global] Instance MaterialRef_countable : Countable MaterialRef.
Proof.
  refine (inj_countable'
            (fun m => match m with
                      | FromLoader i => inl i
                      | MeshPhongMaterial n => inr n
                      end)
            (fun s => match s with
                      | inl i => FromLoader i
                      | inr n => MeshPhongMaterial n
                      end) _).
  by intros [].
Defined.

(** What [MTLLoader] hands to its success callback. *)
Record MaterialCreator : Type := mkMaterialCreator { materialNames : list string }.

(** An [Object3D] of the loaded graph.  [isMesh] is what
    [child instanceof THREE.Mesh] tests; only the translation part of
    the transform, [position], is touched by the component. *)
#[warnings="-register-all"]
Inductive Object3D : Type := mkObject3D {
  isMesh : bool;
  geometry : option BufferGeometry;
  material : option MaterialRef;
  position : Vector3;
  children : list Object3D
}.

(** [object.traverse (callback)]: the object itself, then its
    descendants, depth first. *)
Fixpoint traverse (o : Object3D) : list Object3D :=
  match o with
  | mkObject3D _ _ _ _ cs => o :: flat_map traverse cs
  end.

(** World-space vertices of the graph: every object with a geometry
    contributes its position attribute moved by the accumulated
    translations. *)
Fixpoint worldPoints (offset : Vector3) (o : Object3D) : list Vector3 :=
  match o with
  | mkObject3D _ g _ p cs =>
      let here := add offset p in
      match g with
      | Some (mkBufferGeometry _ (Some ps)) => map (add here) ps
      | _ => []
      end ++ flat_map (worldPoints here) cs
  end.

(** [new THREE.Box3 ().setFromObject (object)].  three.js unions the
    translated bounding boxes of the geometries, which encloses the
    same points. *)
Definition setFromObject (o : Object3D) : Box3 :=
  fold_left expandByPoint (worldPoints origin o) Box3_empty.

(** [new THREE.PerspectiveCamera (fov, aspect, near, far)].  [fov] is
    in degrees.  [target] is the point of the last [lookAt];
    [projection] holds the (fov, aspect, near, far) the projection
    matrix was last computed from. *)
Record PerspectiveCamera : Type := mkPerspectiveCamera {
  fov : R;
  aspect : R;
  near : R;
  far : R;
  cam_position : Vector3;
  target : option Vector3;
  projection : R * R * R * R
}.

(** [camera.lookAt (p)] *)
Definition lookAt (p : Vector3) (c : PerspectiveCamera) : PerspectiveCamera :=
  mkPerspectiveCamera (fov c) (aspect c) (near c) (far c) (cam_position c)
    (Some p) (projection c).

(** [camera.position.set (...)], [camera.near = n], [camera.far = f] *)
Definition setPosition (p : Vector3) (c : PerspectiveCamera) : PerspectiveCamera :=
  mkPerspectiveCamera (fov c) (aspect c) (near c) (far c) p (target c) (projection c).

Definition setNear (n : R) (c : PerspectiveCamera) : PerspectiveCamera :=
  mkPerspectiveCamera (fov c) (aspect c) n (far c) (cam_position c) (target c)
    (projection c).

Definition setFar (f : R) (c : PerspectiveCamera) : PerspectiveCamera :=
  mkPerspectiveCamera (fov c) (aspect c) (near c) f (cam_position c) (target c)
    (projection c).

Definition updateProjectionMatrix (c : PerspectiveCamera) : PerspectiveCamera :=
  mkPerspectiveCamera (fov c) (aspect c) (near c) (far c) (cam_position c)
    (target c) (fov c, aspect c, near c, far c).

(** The children of the [Scene], in the order of [scene.add]. *)
Inductive SceneObject : Type :=
| GridHelper (size divisions : nat)
| AxesHelper (size : nat)
| AmbientLight
| DirectionalLight
| PointLight
| BoxMesh (dims : Vector3) (wireframe : bool) (at_ : Vector3)
| Model (o : Object3D)
| Box3Helper (b : Box3).

End THREE.

(** ** The component *)

Module Viewer.

Import Stdlib.Floats.PrimFloat.
Import THREE.

Record Dimensions : Type := mkDimensions { width : R; height : R; depth : R }.

Record ModelMetadata : Type := mkModelMetadata {
  vertices : nat;
  faces : float;
  materials : nat;
  dimensions : Dimensions
}.

(** *** Mesh statistics *)

(** [countVertices]: the callback of [object.traverse] adds
    [position.count] for every mesh that has a position attribute. *)
Definition countVertices (object : Object3D) : nat :=
  fold_left
    (fun count child =>
       if isMesh child then
         match geometry child with
         | Some geometry =>
             match position_attr geometry with
             | Some position => count + length position
             | None => count
             end
         | None => count
         end
       else count)
    (traverse object) 0.

(** A buffer count as a JavaScript number: the double of the integer
    (counts are array lengths, far below 2^53, so the conversion is
    exact). *)
Definition ofNat (n : nat) : float := of_uint63 (Uint63.of_Z (Z.of_nat n)).

(** The JavaScript quotient [n / 3] of a buffer count, rounded to the
    nearest double. *)
Definition third (n : nat) : float := div (ofNat n) 3%float.

(** [countFaces]: the callback adds [index.count / 3] for a mesh with an
    index buffer, else [position.count / 3] when it has positions. *)
Definition countFaces (object : Object3D) : float :=
  fold_left
    (fun count child =>
       if isMesh child then
         match geometry child with
         | Some geometry =>
             match index geometry with
             | Some index => PrimFloat.add count (third (length index))
             | None =>
                 match position_attr geometry with
                 | Some position => PrimFloat.add count (third (length position))
                 | None => count
                 end
             end
         | None => count
         end
       else count)
    (traverse object) 0%float.

(** The [Set] filled by the second traversal:
    [if (child.material) materialCount.add (child.material)]. *)
Definition materialSet (object : Object3D) : gset MaterialRef :=
  fold_left
    (fun materialCount child =>
       if isMesh child then
         match material child with
         | Some m => {[ m ]} ∪ materialCount
         | None => materialCount
         end
       else materialCount)
    (traverse object) ∅.

(** *** Material assignment *)

(** [object.traverse (child => { if (child instanceof THREE.Mesh)
    child.material = new THREE.MeshPhongMaterial (params) })]: every mesh
    gets a material of its own; [store] is the list of the materials the
    component has constructed so far. *)
Fixpoint applyMaterial (params : PhongParams) (o : Object3D)
    (store : list PhongParams) : Object3D * list PhongParams :=
  match o with
  | mkObject3D m g mat p cs =>
      let '(mat', store1) :=
        if m then (Some (MeshPhongMaterial (length store)), store ++ [params])
        else (mat, store) in
      let '(cs', store2) :=
        (fix visit (l : list Object3D) (st : list PhongParams) :=
           match l with
           | [] => ([], st)
           | c :: l' =>
               let '(c', st1) := applyMaterial params c st in
               let '(l'', st2) := visit l' st1 in
               (c' :: l'', st2)
           end) cs store1 in
      (mkObject3D m g mat' p cs', store2)
  end.

(** [object.position.sub (center)] *)
Definition centerObject (center : Vector3) (o : Object3D) : Object3D :=
  mkObject3D (isMesh o) (geometry o) (material o) (sub (position o) center)
    (children o).

(** *** Camera framing *)

Local Open Scope R_scope.

(** [Math.abs (maxDim / Math.sin (fov / 2))], then [cameraZ *= 2];
    [fov] in radians. *)
Definition cameraDistance (maxDim fov : R) : R :=
  Rabs (maxDim / sin (fov / 2)) * 2.

Definition maxDimension (size : Vector3) : R :=
  Rmax (Rmax (x size) (y size)) (z size).

(** "Adjust camera to fit the object" *)
Definition frameCamera (size : Vector3) (camera : PerspectiveCamera)
    : PerspectiveCamera :=
  let maxDim := maxDimension size in
  let fov := THREE.fov camera * (PI / 180) in
  let cameraZ := cameraDistance maxDim fov in
  let camera := setPosition (mkVector3 0 (maxDim / 2) cameraZ) camera in
  let camera := lookAt (mkVector3 0 0 0) camera in
  let camera := setNear (1 / 10) camera in
  let camera := setFar 1000 camera in
  updateProjectionMatrix camera.

Local Close Scope R_scope.

(** *** State of one mount of the component *)

(** The React state ([useState]) and the variables of the effect's
    closure ([scene], [camera]: [None] until assigned); [store] holds
    the [MeshPhongMaterial]s constructed so far and [requests] the files
    asked of the loaders, oldest first. *)
Record World : Type := mkWorld {
  modelMetadata : option ModelMetadata;
  loading : bool;
  error : option string;
  scene : option (list SceneObject);
  camera : option PerspectiveCamera;
  store : list PhongParams;
  requests : list string
}.

Definition setModelMetadata (md : ModelMetadata) (w : World) : World :=
  mkWorld (Some md) (loading w) (error w) (scene w) (camera w) (store w) (requests w).

Definition setLoading (b : bool) (w : World) : World :=
  mkWorld (modelMetadata w) b (error w) (scene w) (camera w) (store w) (requests w).

Definition setError (msg : string) (w : World) : World :=
  mkWorld (modelMetadata w) (loading w) (Some msg) (scene w) (camera w) (store w) (requests w).

Definition setScene (sc : option (list SceneObject)) (w : World) : World :=
  mkWorld (modelMetadata w) (loading w) (error w) sc (camera w) (store w) (requests w).

(** [scene.add (o)] *)
Definition sceneAdd (o : SceneObject) (w : World) : World :=
  setScene ((fun l => l ++ [o]) <$> scene w) w.

Definition setCamera (c : option PerspectiveCamera) (w : World) : World :=
  mkWorld (modelMetadata w) (loading w) (error w) (scene w) c (store w) (requests w).

Definition setStore (st : list PhongParams) (w : World) : World :=
  mkWorld (modelMetadata w) (loading w) (error w) (scene w) (camera w) st (requests w).

(** [loader.load (file, onLoad, onProgress, onError)] *)
Definition request (file : string) (w : World) : World :=
  mkWorld (modelMetadata w) (loading w) (error w) (scene w) (camera w) (store w)
    (requests w ++ [file]).

(** [useState (null)], [useState (true)], [useState (null)] *)
Definition initialWorld : World := mkWorld None true None None None [] [].

(** *** The environment of a run *)

(** What a loader does with a request: it calls [onLoad], it calls
    [onError], or it never calls back. *)
Inductive Fetch (A : Type) : Type :=
| Loaded (a : A)
| Errored (message : string)
| Stalled.
Arguments Loaded {A} a.
Arguments Errored {A} message.
Arguments Stalled {A}.

(** How the set-up part of [init] goes: a dynamic [import] rejects,
    [mountRef.current] is null, the renderer constructor throws, or
    nothing goes wrong. *)
Inductive InitOutcome : Type :=
| ImportRejected
| NotMounted
| RendererThrows
| InitOk.

Record Window : Type := mkWindow { innerWidth : R; innerHeight : R }.

Record Env : Type := mkEnv {
  initOutcome : InitOutcome;
  window : Window;
  texture : Fetch Texture;
  mtl : Fetch MaterialCreator;
  obj : Fetch Object3D
}.

(** *** The load callbacks *)

Definition metadataOf (object : Object3D) (materialCount : nat) (size : Vector3)
    : ModelMetadata :=
  mkModelMetadata (countVertices object) (countFaces object) materialCount
    (mkDimensions (x size) (y size) (z size)).

Local Open Scope string_scope.

(** The three error messages of the geometry stage, the one of the
    material stage and the one of [init]'s [catch]. *)
Definition msgObjError : string :=
  "Failed to load 3D model. Please check if model files exist in the correct location.".
Definition msgFallbackObjError : string :=
  "Failed to load model with or without materials.".
Definition msgObjErrorNoTexture : string :=
  "Failed to load 3D model without texture.".
Definition msgMtlErrorNoTexture : string :=
  "Failed to load materials and texture.".
Definition msgInitError : string :=
  "Failed to initialize 3D viewer".

(** Texture and material library loaded: [onLoad] of [capsule.obj]. *)
Definition objLoaded (texture : Texture) (object : Object3D) (w : World) : World :=
  let box := setFromObject object in
  let center := getCenter box in
  let size := getSize box in
  let object := centerObject center object in
  let '(object, st) :=
    applyMaterial (mkPhongParams None (Some texture) (Some 50) (Some false) (Some 1%R))
      object (store w) in
  let w := setStore st w in
  let w := sceneAdd (Model object) w in
  let w := sceneAdd (Box3Helper box) w in
  let w := sceneAdd (BoxMesh size true (position object)) w in
  let materialCount := materialSet object in
  let w := setModelMetadata (metadataOf object (base.size materialCount) size) w in
  let w := setCamera (frameCamera size <$> camera w) w in
  setLoading false w.

Definition objError (w : World) : World :=
  setLoading false (setError msgObjError w).

(** Texture loaded, material library failed: [onLoad] of the fallback
    request for [capsule.obj]. *)
Definition fallbackObjLoaded (texture : Texture) (object : Object3D) (w : World)
    : World :=
  let box := setFromObject object in
  let center := getCenter box in
  let size := getSize box in
  let object := centerObject center object in
  let '(object, st) :=
    applyMaterial (mkPhongParams None (Some texture) (Some 50) None None)
      object (store w) in
  let w := setStore st w in
  let w := sceneAdd (Model object) w in
  let w := setModelMetadata (metadataOf object 1 size) w in
  setLoading false w.

Definition fallbackObjError (w : World) : World :=
  setLoading false (setError msgFallbackObjError w).

(** Texture failed, material library loaded: [onLoad] of [capsule.obj]. *)
Definition objLoadedNoTexture (object : Object3D) (w : World) : World :=
  let box := setFromObject object in
  let center := getCenter box in
  let size := getSize box in
  let object := centerObject center object in
  let w := sceneAdd (Model object) w in
  let materialCount := materialSet object in
  let w := setModelMetadata (metadataOf object (base.size materialCount) size) w in
  setLoading false w.

Definition objErrorNoTexture (w : World) : World :=
  setLoading false (setError msgObjErrorNoTexture w).

Definition mtlErrorNoTexture (w : World) : World :=
  setLoading false (setError msgMtlErrorNoTexture w).

(** [textureLoader.load ('capsule0.jpg', ...)] with its nested loads. *)
Definition loadModel (env : Env) (w : World) : World :=
  let w := request "capsule0.jpg" w in
  match texture env with
  | Loaded texture =>
      let w := request "capsule.mtl" w in
      match mtl env with
      | Loaded materials =>
          let w := request "capsule.obj" w in
          match obj env with
          | Loaded object => objLoaded texture object w
          | Errored _ => objError w
          | Stalled => w
          end
      | Errored _ =>
          let w := request "capsule.obj" w in
          match obj env with
          | Loaded object => fallbackObjLoaded texture object w
          | Errored _ => fallbackObjError w
          | Stalled => w
          end
      | Stalled => w
      end
  | Errored _ =>
      let w := request "capsule.mtl" w in
      match mtl env with
      | Loaded materials =>
          let w := request "capsule.obj" w in
          match obj env with
          | Loaded object => objLoadedNoTexture object w
          | Errored _ => objErrorNoTexture w
          | Stalled => w
          end
      | Errored _ => mtlErrorNoTexture w
      | Stalled => w
      end
  | Stalled => w
  end.

Local Close Scope string_scope.

(** *** [init] *)

(** Scene, helpers and the three lights. *)
Definition createScene (w : World) : World :=
  let w := setScene (Some []) w in
  let w := sceneAdd (GridHelper 10 10) w in
  let w := sceneAdd (AxesHelper 5) w in
  let w := sceneAdd AmbientLight w in
  let w := sceneAdd DirectionalLight w in
  sceneAdd PointLight w.

(** [new THREE.PerspectiveCamera (75, innerWidth / innerHeight, 0.1,
    1000)], which computes the projection matrix, and
    [camera.position.set (0, 2, 5)]. *)
Definition createCamera (win : Window) (w : World) : World :=
  setCamera
    (Some (setPosition (mkVector3 0 2 5)
             (updateProjectionMatrix
                (mkPerspectiveCamera 75 (innerWidth win / innerHeight win)
                   (1 / 10) 1000 origin None (0, 0, 0, 0)%R)))) w.

(** [controls.target.set (0, 0, 0); controls.update ()] aims the camera
    at the target. *)
Definition createControls (w : World) : World :=
  setCamera (lookAt origin <$> camera w) w.

(** "Add a simple test object to verify rendering" *)
Definition addTestCube (w : World) : World :=
  let w := setStore (store w ++ [mkPhongParams (Some 16711680%N) None None
                                   (Some true) (Some (1 / 2)%R)]) w in
  sceneAdd (BoxMesh (mkVector3 1 1 1) false origin) w.

Definition catchInit (w : World) : World :=
  setLoading false (setError msgInitError w).

Definition init (env : Env) (w : World) : World :=
  match initOutcome env with
  | ImportRejected => catchInit w
  | NotMounted => w
  | RendererThrows => catchInit (createCamera (window env) (createScene w))
  | InitOk =>
      let w := createScene w in
      let w := createCamera (window env) w in
      let w := createControls w in
      let w := addTestCube w in
      loadModel env w
  end.

(** One mount: the effect runs [init] on the initial state. *)
Definition run (env : Env) : World := init env initialWorld.

(** *** The load state the host sees *)

(** The [LoadState] of the specification, read off the React state as
    the component renders it: the error message when [error] is set, the
    metadata panel when [modelMetadata] is set. *)
Inductive LoadState : Type :=
| Loading
| Ready (md : ModelMetadata)
| Failed (message : string).

Definition loadState (w : World) : LoadState :=
  match error w, modelMetadata w with
  | Some msg, _ => Failed msg
  | None, Some md => Ready md
  | None, None => Loading
  end.

End Viewer.

(** ** Sample models *)

Module Samples.

Import THREE Viewer.

Local Open Scope R_scope.

(** A mesh of four vertices and no index buffer. *)
Definition quad : Object3D :=
  mkObject3D true
    (Some (mkBufferGeometry None
             (Some [mkVector3 0 0 0; mkVector3 1 0 0; mkVector3 1 1 0; mkVector3 0 1 0])))
    (Some (FromLoader 1)) origin [].

(** One indexed triangle. *)
Definition triangle : Object3D :=
  mkObject3D true
    (Some (mkBufferGeometry (Some [0; 1; 2]%nat)
             (Some [mkVector3 0 0 0; mkVector3 2 0 0; mkVector3 0 2 0])))
    (Some (FromLoader 1)) origin [].

(** What OBJLoader returns for a file of two objects that use the same
    material: a group with two meshes. *)
Definition twoMeshes : Object3D :=
  mkObject3D false None None origin [triangle; triangle].

(** A cube of side 2 about the origin: 8 vertices, 12 indexed
    triangles, one material. *)
Definition cube : Object3D :=
  mkObject3D false None None origin
    [mkObject3D true
       (Some (mkBufferGeometry
                (Some [0; 1; 2; 2; 3; 0; 4; 5; 6; 6; 7; 4; 0; 1; 5; 5; 4; 0;
                       2; 3; 7; 7; 6; 2; 0; 3; 7; 7; 4; 0; 1; 2; 6; 6; 5; 1]%nat)
                (Some [mkVector3 (-1) (-1) (-1); mkVector3 1 (-1) (-1);
                       mkVector3 1 1 (-1); mkVector3 (-1) 1 (-1);
                       mkVector3 (-1) (-1) 1; mkVector3 1 (-1) 1;
                       mkVector3 1 1 1; mkVector3 (-1) 1 1])))
       (Some (FromLoader 1)) origin []].

(** A triangle as [OBJLoader] builds it: three positions and no index
    buffer. *)
Definition facet : Object3D :=
  mkObject3D true
    (Some (mkBufferGeometry None
             (Some [mkVector3 0 0 0; mkVector3 2 0 0; mkVector3 0 2 0])))
    (Some (FromLoader 1)) origin [].

(** A mesh of one position, and a group of six of them. *)
Definition single : Object3D :=
  mkObject3D true (Some (mkBufferGeometry None (Some [mkVector3 0 0 0])))
    (Some (FromLoader 1)) origin [].

Definition sixSingles : Object3D :=
  mkObject3D false None None origin [single; single; single; single; single; single].

Definition someTexture : Texture := mkTexture "capsule0.jpg".
Definition someMaterials : MaterialCreator := mkMaterialCreator ["capsule"%string].
Definition someWindow : Window := mkWindow 800 600.

End Samples.

(** ** Traversals of the object graph *)

Module Graph.

Import THREE Viewer.

(** Induction over an object and all its descendants. *)
Fixpoint Object3D_forall_ind (P : Object3D -> Prop)
    (step : forall m g mat p cs, Forall P cs -> P (mkObject3D m g mat p cs))
    (o : Object3D) : P o :=
  match o with
  | mkObject3D m g mat p cs =>
      step m g mat p cs
        ((fix all (l : list Object3D) : Forall P l :=
            match l with
            | [] => List.Forall_nil P
            | c :: l' => @List.Forall_cons _ P c l' (Object3D_forall_ind P step c) (all l')
            end) cs)
  end.

(** The meshes met by [traverse], and the materials they hold. *)
Definition meshCount (o : Object3D) : nat :=
  length (filter (fun c => isMesh c = true) (traverse o)).

Definition meshMaterial (c : Object3D) : option MaterialRef :=
  if isMesh c then material c else None.

Definition meshMaterials (o : Object3D) : list MaterialRef :=
  omap meshMaterial (traverse o).

(** [applyMaterial] on a list of children, the state threaded through. *)
Fixpoint applyMaterialList (params : PhongParams) (l : list Object3D)
    (st : list PhongParams) : list Object3D * list PhongParams :=
  match l with
  | [] => ([], st)
  | c :: l' =>
      let '(c', st1) := applyMaterial params c st in
      let '(l'', st2) := applyMaterialList params l' st1 in
      (c' :: l'', st2)
  end.

Lemma visit_applyMaterialList params cs st :
  (fix visit (l : list Object3D) (st0 : list PhongParams) :=
     match l with
     | [] => ([], st0)
     | c :: l' =>
         let '(c', st1) := applyMaterial params c st0 in
         let '(l'', st2) := visit l' st1 in
         (c' :: l'', st2)
     end) cs st = applyMaterialList params cs st.
Proof.
  revert st. induction cs as [|c cs IH]; intros st; [reflexivity|].
  cbn [applyMaterialList]. destruct (applyMaterial params c st) as [c' st1].
  rewrite IH. reflexivity.
Qed.

Lemma applyMaterial_unfold params m g mat p cs st :
  applyMaterial params (mkObject3D m g mat p cs) st =
    let '(mat', store1) :=
      if m then (Some (MeshPhongMaterial (length st)), st ++ [params])
      else (mat, st) in
    let '(cs', store2) := applyMaterialList params cs store1 in
    (mkObject3D m g mat' p cs', store2).
Proof.
  cbn [applyMaterial]. destruct m; rewrite visit_applyMaterialList; reflexivity.
Qed.

Definition meshCountList (cs : list Object3D) : nat :=
  length (filter (fun c => isMesh c = true) (flat_map traverse cs)).

Lemma meshCount_unfold m g mat p cs :
  meshCount (mkObject3D m g mat p cs) =
    (if m then 1 else 0) + meshCountList cs.
Proof.
  unfold meshCount, meshCountList. cbn [traverse].
  rewrite filter_cons. cbn [isMesh].
  destruct m; case_decide; try congruence; reflexivity.
Qed.

Lemma meshCountList_cons c cs :
  meshCountList (c :: cs) = meshCount c + meshCountList cs.
Proof.
  unfold meshCountList, meshCount. cbn [flat_map].
  rewrite filter_app, length_app. reflexivity.
Qed.

Lemma meshMaterials_unfold m g mat p cs :
  meshMaterials (mkObject3D m g mat p cs) =
    (if m then option_list mat else []) ++ omap meshMaterial (flat_map traverse cs).
Proof.
  unfold meshMaterials. cbn [traverse omap list_omap].
  unfold meshMaterial at 1. cbn [isMesh material].
  destruct m, mat; reflexivity.
Qed.

(** After [applyMaterial] the meshes hold, in traversal order, the
    materials constructed one after the other from the first free
    serial on. *)
Lemma applyMaterial_fresh params o :
  forall st,
    meshMaterials (applyMaterial params o st).1 =
      MeshPhongMaterial <$> seq (length st) (meshCount o)
    /\ length (applyMaterial params o st).2 = length st + meshCount o.
Proof.
  induction o as [m g mat p cs IH] using Object3D_forall_ind. intros st.
  rewrite applyMaterial_unfold, meshCount_unfold.
  set (mat' := if m then Some (MeshPhongMaterial (length st)) else mat).
  set (st1 := if m then st ++ [params] else st).
  assert (Hlist : forall s,
    omap meshMaterial (flat_map traverse (applyMaterialList params cs s).1) =
      MeshPhongMaterial <$> seq (length s) (meshCountList cs)
    /\ length (applyMaterialList params cs s).2 = length s + meshCountList cs).
  { clear -IH. induction IH as [|c cs Hc _ IHcs]; intros s.
    - split; [reflexivity|]. cbn. unfold meshCountList. cbn. lia.
    - cbn [applyMaterialList]. destruct (Hc s) as [Hm Hl].
      destruct (applyMaterial params c s) as [c' s1]. cbn [fst snd] in Hm, Hl.
      destruct (IHcs s1) as [Hm' Hl'].
      destruct (applyMaterialList params cs s1) as [cs' s2]. cbn [fst snd] in *.
      rewrite meshCountList_cons. cbn [flat_map].
      rewrite omap_app, seq_app, fmap_app. fold (meshMaterials c').
      rewrite Hm, Hm', Hl. split; [reflexivity | lia]. }
  destruct m; cbn [fst snd].
  - destruct (Hlist (st ++ [params])) as [Hm Hl].
    destruct (applyMaterialList params cs (st ++ [params])) as [cs' s2].
    cbn [fst snd] in *. rewrite meshMaterials_unfold, Hm.
    rewrite length_app in Hl |- *. cbn [length] in Hl |- *.
    split; [|lia]. cbn [option_list app].
    replace (length st + 1) with (S (length st)) by lia. reflexivity.
  - destruct (Hlist st) as [Hm Hl].
    destruct (applyMaterialList params cs st) as [cs' s2].
    cbn [fst snd] in *. rewrite meshMaterials_unfold, Hm.
    split; [reflexivity | lia].
Qed.

(** [applyMaterial] touches nothing but the [material] of the meshes. *)
Lemma applyMaterial_position params o st :
  position (applyMaterial params o st).1 = position o.
Proof.
  destruct o as [m g mat p cs]. rewrite applyMaterial_unfold.
  destruct m; destruct (applyMaterialList _ _ _); reflexivity.
Qed.

(** The [Set] of the second traversal holds exactly the materials of
    the meshes. *)
Lemma materialSet_list o :
  materialSet o = list_to_set (meshMaterials o).
Proof.
  unfold materialSet, meshMaterials.
  assert (H : forall l (acc : gset MaterialRef),
    fold_left
      (fun materialCount child =>
         if isMesh child then
           match material child with
           | Some m => {[ m ]} ∪ materialCount
           | None => materialCount
           end
         else materialCount) l acc
    = list_to_set (omap meshMaterial l) ∪ acc).
  { induction l as [|c l IH]; intros acc; cbn [fold_left omap list_omap].
    - cbn. set_solver.
    - rewrite IH. unfold meshMaterial at 2.
      destruct (isMesh c); [destruct (material c)|]; cbn [list_to_set]; set_solver. }
  rewrite H. set_solver.
Qed.

Lemma materialSet_applyMaterial params o st :
  size (materialSet (applyMaterial params o st).1) = meshCount o.
Proof.
  rewrite materialSet_list.
  destruct (applyMaterial_fresh params o st) as [-> _].
  rewrite size_list_to_set.
  - rewrite length_fmap, length_seq. reflexivity.
  - apply NoDup_fmap_2; [intros a b; congruence | apply NoDup_seq].
Qed.

Lemma meshCount_centerObject c o : meshCount (centerObject c o) = meshCount o.
Proof.
  destruct o as [m g mat p cs]. unfold centerObject.
  cbn [isMesh geometry material position children].
  rewrite !meshCount_unfold. reflexivity.
Qed.

End Graph.

(** ** What each callback leaves behind *)

Module Callbacks.

Import THREE Viewer Graph.

(** The options of the material built in the two texture branches. *)
Definition texturedParams (texture : Texture) : PhongParams :=
  mkPhongParams None (Some texture) (Some 50) (Some false) (Some 1%R).

Definition fallbackParams (texture : Texture) : PhongParams :=
  mkPhongParams None (Some texture) (Some 50) None None.

(** The object as the callbacks leave it: centred on the snapshot of
    its bounding box, then (texture branches) re-materialled. *)
Definition centred (o : Object3D) : Object3D :=
  centerObject (getCenter (setFromObject o)) o.

Definition snapshotSize (o : Object3D) : Vector3 := getSize (setFromObject o).

Lemma objLoaded_world tex o w :
  let r := applyMaterial (texturedParams tex) (centred o) (store w) in
  objLoaded tex o w =
    mkWorld
      (Some (metadataOf r.1 (size (materialSet r.1)) (snapshotSize o)))
      false (error w)
      ((fun l => l ++ [Model r.1; Box3Helper (setFromObject o);
                       BoxMesh (snapshotSize o) true (position r.1)]) <$> scene w)
      (frameCamera (snapshotSize o) <$> camera w)
      r.2 (requests w).
Proof.
  unfold objLoaded, texturedParams, centred, snapshotSize. cbn zeta.
  destruct (applyMaterial _ _ _) as [o' st]. destruct w as [md l e sc c s rq].
  unfold setLoading, setCamera, setModelMetadata, sceneAdd, setScene, setStore.
  destruct sc as [sc|]; cbn [modelMetadata loading error scene camera store requests
                               fmap option_fmap option_map]; [|reflexivity].
  rewrite <- !app_assoc. reflexivity.
Qed.

Lemma fallbackObjLoaded_world tex o w :
  let r := applyMaterial (fallbackParams tex) (centred o) (store w) in
  fallbackObjLoaded tex o w =
    mkWorld
      (Some (metadataOf r.1 1 (snapshotSize o)))
      false (error w)
      ((fun l => l ++ [Model r.1]) <$> scene w)
      (camera w) r.2 (requests w).
Proof.
  unfold fallbackObjLoaded, fallbackParams, centred, snapshotSize. cbn zeta.
  destruct (applyMaterial _ _ _) as [o' st]. destruct w as [md l e sc c s rq].
  reflexivity.
Qed.

Lemma objLoadedNoTexture_world o w :
  objLoadedNoTexture o w =
    mkWorld
      (Some (metadataOf (centred o) (size (materialSet (centred o))) (snapshotSize o)))
      false (error w)
      ((fun l => l ++ [Model (centred o)]) <$> scene w)
      (camera w) (store w) (requests w).
Proof. destruct w; reflexivity. Qed.

(** The state in which [init] starts the loads. *)
Definition mounted (win : Window) : World :=
  addTestCube (createControls (createCamera win (createScene initialWorld))).

Definition initialCamera (win : Window) : PerspectiveCamera :=
  lookAt origin
    (setPosition (mkVector3 0 2 5)
       (updateProjectionMatrix
          (mkPerspectiveCamera 75 (innerWidth win / innerHeight win)
             (1 / 10) 1000 origin None (0, 0, 0, 0)%R))).

Definition defaultScene : list SceneObject :=
  [GridHelper 10 10; AxesHelper 5; AmbientLight; DirectionalLight; PointLight;
   BoxMesh (mkVector3 1 1 1) false origin].

Lemma mounted_world win :
  mounted win =
    mkWorld None true None (Some defaultScene) (Some (initialCamera win))
      [mkPhongParams (Some 16711680%N) None None (Some true) (Some (1 / 2)%R)] [].
Proof. reflexivity. Qed.

Lemma run_InitOk env :
  initOutcome env = InitOk -> run env = loadModel env (mounted (window env)).
Proof. unfold run, init. intros ->. reflexivity. Qed.

End Callbacks.

(** ** Runs of the pipeline *)

Module Runs.

Import THREE Viewer Graph Callbacks Samples.

Local Open Scope string_scope.

(** Decompose a run by the answers of the three loaders. *)
Ltac by_outcomes env :=
  let io := fresh "io" in
  let win := fresh "win" in
  let tx := fresh "tx" in
  let ml := fresh "ml" in
  let ob := fresh "ob" in
  destruct env as [io win tx ml ob];
  cbn [initOutcome window texture mtl obj] in *.

Ltac callbacks :=
  rewrite ?objLoaded_world, ?fallbackObjLoaded_world, ?objLoadedNoTexture_world;
  unfold objError, fallbackObjError, objErrorNoTexture, mtlErrorNoTexture, catchInit.

Lemma materialSet_centred o : materialSet (centred o) = materialSet o.
Proof. destruct o as [m g mat p cs]. reflexivity. Qed.

(** The files asked of the loaders, in order, in a run whose set-up
    succeeded. *)
Definition requestsOf (env : Env) : list string :=
  match texture env with
  | Stalled => ["capsule0.jpg"]
  | Loaded _ =>
      match mtl env with
      | Stalled => ["capsule0.jpg"; "capsule.mtl"]
      | _ => ["capsule0.jpg"; "capsule.mtl"; "capsule.obj"]
      end
  | Errored _ =>
      match mtl env with
      | Loaded _ => ["capsule0.jpg"; "capsule.mtl"; "capsule.obj"]
      | _ => ["capsule0.jpg"; "capsule.mtl"]
      end
  end.

Lemma requests_run env :
  initOutcome env = InitOk -> requests (run env) = requestsOf env.
Proof.
  intros Hi. rewrite (run_InitOk _ Hi). by_outcomes env. clear Hi.
  unfold loadModel, requestsOf. cbn [texture mtl obj].
  destruct tx, ml, ob; callbacks; reflexivity.
Qed.

(** Sample environments. *)
Definition envAllLoaded (o : Object3D) : Env :=
  mkEnv InitOk someWindow (Loaded someTexture) (Loaded someMaterials) (Loaded o).

Definition envMtlFails (o : Object3D) : Env :=
  mkEnv InitOk someWindow (Loaded someTexture) (Errored "404") (Loaded o).

Definition envTextureFails (o : Object3D) : Env :=
  mkEnv InitOk someWindow (Errored "404") (Loaded someMaterials) (Loaded o).

Definition envTextureAndMtlFail (o : Object3D) : Env :=
  mkEnv InitOk someWindow (Errored "404") (Errored "404") (Loaded o).

Definition envObjFails : Env :=
  mkEnv InitOk someWindow (Loaded someTexture) (Loaded someMaterials) (Errored "404").

Definition envMtlAndObjFail : Env :=
  mkEnv InitOk someWindow (Loaded someTexture) (Errored "404") (Errored "404").

Definition envTextureStalls (o : Object3D) : Env :=
  mkEnv InitOk someWindow Stalled (Loaded someMaterials) (Loaded o).

Lemma sample_run_ready :
  exists md, loadState (run (envAllLoaded triangle)) = Ready md.
Proof.
  rewrite run_InitOk by reflexivity. unfold loadModel, envAllLoaded.
  cbn [texture mtl obj]. callbacks. eexists. reflexivity.
Defined.

(** *** Material count *)

(** C1, as the claim states it, fails: with texture, material library
    and geometry all loaded, a model of two meshes is reported with two
    materials, one fresh textured material per mesh. *)
Lemma textured_load_two_meshes_two_materials :
  texture (envAllLoaded twoMeshes) = Loaded someTexture /\
  obj (envAllLoaded twoMeshes) = Loaded twoMeshes /\
  (exists md, loadState (run (envAllLoaded twoMeshes)) = Ready md /\ materials md = 2) /\
  ~ (exists md, loadState (run (envAllLoaded twoMeshes)) = Ready md /\ materials md = 1).
Proof.
  split; [reflexivity|]. split; [reflexivity|].
  assert (H : exists md, loadState (run (envAllLoaded twoMeshes)) = Ready md
                         /\ materials md = 2).
  { rewrite run_InitOk by reflexivity. unfold loadModel. cbn [texture mtl obj envAllLoaded].
    callbacks. eexists. split; [reflexivity|]. cbn [materials metadataOf].
    rewrite materialSet_applyMaterial. vm_compute. reflexivity. }
  split; [exact H|]. destruct H as [md [H1 H2]]. intros [md' [H1' H2']].
  rewrite H1 in H1'. injection H1' as <-. lia.
Qed.

(** C1, amended: after a load in which the texture and the geometry
    load, the reported material count is the number of meshes of the
    loaded node when the material library loaded too (every mesh gets a
    material of its own), and it is the constant 1 when the material
    library failed. *)
Theorem textured_load_material_count env tex o :
  initOutcome env = InitOk -> texture env = Loaded tex -> obj env = Loaded o ->
  (forall m, mtl env = Loaded m ->
     exists md, loadState (run env) = Ready md /\ materials md = meshCount o) /\
  (forall msg, mtl env = Errored msg ->
     exists md, loadState (run env) = Ready md /\ materials md = 1).
Proof.
  intros Hi Ht Ho. rewrite (run_InitOk _ Hi). by_outcomes env. subst.
  unfold loadModel. cbn [texture mtl obj]. split.
  - intros m ->. callbacks. eexists. split; [reflexivity|].
    cbn [materials metadataOf]. rewrite materialSet_applyMaterial.
    apply meshCount_centerObject.
  - intros msg ->. callbacks. eexists. split; reflexivity.
Qed.

Lemma textured_load_material_count_witness :
  exists md, loadState (run (envAllLoaded twoMeshes)) = Ready md /\ materials md = 2.
Proof.
  exact (proj1 (textured_load_material_count (envAllLoaded twoMeshes) someTexture
                  twoMeshes eq_refl eq_refl eq_refl) someMaterials eq_refl).
Defined.

(** *** Failure of the material library *)

(** C2, as the claim states it, fails: when the texture has failed too,
    a failure of the material library ends the run in the failed state,
    although the geometry file would load; it is not even requested. *)
Lemma mtl_failure_after_texture_failure_fails :
  mtl (envTextureAndMtlFail triangle) = Errored "404" /\
  obj (envTextureAndMtlFail triangle) = Loaded triangle /\
  loadState (run (envTextureAndMtlFail triangle)) =
    Failed "Failed to load materials and texture." /\
  requests (run (envTextureAndMtlFail triangle)) = ["capsule0.jpg"; "capsule.mtl"].
Proof. repeat split; reflexivity. Qed.

(** C2, amended: when the material library fails and the geometry
    loads, the run ends ready with a material count of 1 provided the
    texture had loaded; when the texture had failed, the failure of
    the material library is terminal and the geometry is not
    requested. *)
Theorem mtl_failure_fallback env msg o :
  initOutcome env = InitOk -> mtl env = Errored msg -> obj env = Loaded o ->
  (forall tex, texture env = Loaded tex ->
     exists md, loadState (run env) = Ready md /\ materials md = 1) /\
  (forall tmsg, texture env = Errored tmsg ->
     loadState (run env) = Failed msgMtlErrorNoTexture /\
     ~ In "capsule.obj" (requests (run env))).
Proof.
  intros Hi Hm Ho. rewrite (requests_run _ Hi), (run_InitOk _ Hi).
  by_outcomes env. subst. unfold loadModel, requestsOf. cbn [texture mtl obj]. split.
  - intros tex ->. callbacks. eexists. split; reflexivity.
  - intros tmsg ->. callbacks. split; [reflexivity|].
    cbn. intros [H|[H|[]]]; discriminate.
Qed.

Lemma mtl_failure_fallback_witness :
  exists md, loadState (run (envMtlFails triangle)) = Ready md /\ materials md = 1.
Proof.
  exact (proj1 (mtl_failure_fallback (envMtlFails triangle) "404" triangle
                  eq_refl eq_refl eq_refl) someTexture eq_refl).
Defined.

(** *** Failure of the texture *)

(** C3, as the claim states it, fails twice.  With the material library
    failing and the geometry loadable, the run is ready when the
    texture loads and failed when the texture fails: the failure of the
    texture changes the outcome.  And while the texture request has not
    been answered, nothing else is requested: the run stays loading
    with the texture as its only request. *)
Lemma texture_failure_changes_outcome :
  (exists md, loadState (run (envMtlFails triangle)) = Ready md) /\
  loadState (run (envTextureAndMtlFail triangle)) = Failed msgMtlErrorNoTexture /\
  requests (run (envTextureStalls triangle)) = ["capsule0.jpg"] /\
  loadState (run (envTextureStalls triangle)) = Loading.
Proof.
  split; [|repeat split; reflexivity].
  rewrite run_InitOk by reflexivity. unfold loadModel, envMtlFails.
  cbn [texture mtl obj]. callbacks. eexists. reflexivity.
Qed.

(** C3, amended: the loads are chained.  The texture is requested
    first, and while it is unanswered nothing else is requested and the
    run stays loading; the material library is requested exactly when
    the texture request has been answered, by success or by failure; the
    geometry is requested exactly when the material request has been
    answered in a way that goes on (any answer after a loaded texture, a
    loaded library after a failed one), and then the three requests were
    made in that order.  After a failure of the texture the run ends
    ready (with the materials the loaders gave the meshes) when the
    material library and the geometry load, failed when either of them
    fails. *)
Theorem texture_failure_continues env :
  initOutcome env = InitOk ->
  requests (run env) = requestsOf env /\
  (exists rest, requests (run env) = "capsule0.jpg" :: rest) /\
  (texture env = Stalled ->
     requests (run env) = ["capsule0.jpg"] /\ loadState (run env) = Loading) /\
  (In "capsule.mtl" (requests (run env)) <-> texture env <> Stalled) /\
  (In "capsule.obj" (requests (run env)) <->
     ((exists tex, texture env = Loaded tex) /\ mtl env <> Stalled) \/
     (exists tmsg m, texture env = Errored tmsg /\ mtl env = Loaded m)) /\
  (In "capsule.obj" (requests (run env)) ->
     requests (run env) = ["capsule0.jpg"; "capsule.mtl"; "capsule.obj"]) /\
  (forall tmsg, texture env = Errored tmsg ->
     (forall m o, mtl env = Loaded m -> obj env = Loaded o ->
        exists md, loadState (run env) = Ready md /\
                   materials md = size (materialSet o)) /\
     (forall m msg, mtl env = Loaded m -> obj env = Errored msg ->
        loadState (run env) = Failed msgObjErrorNoTexture) /\
     (forall msg, mtl env = Errored msg ->
        loadState (run env) = Failed msgMtlErrorNoTexture)).
Proof.
  intros Hi. rewrite (requests_run _ Hi). split; [reflexivity|].
  split; [unfold requestsOf; destruct (texture env), (mtl env); eexists; reflexivity|].
  split.
  { intros Ht. split; [unfold requestsOf; rewrite Ht; reflexivity|].
    rewrite (run_InitOk _ Hi). by_outcomes env. subst.
    unfold loadModel. cbn [texture]. reflexivity. }
  split.
  { unfold requestsOf. destruct (texture env), (mtl env); cbn;
      split; intros H; try discriminate; try tauto;
      try (exfalso; apply H; reflexivity);
      try (exfalso; destruct H as [H|[]]; discriminate H). }
  split.
  { unfold requestsOf. destruct (texture env) as [tex|tmsg|], (mtl env) as [m|mmsg|]; cbn;
      split; intros H;
      try (left; split; [eexists; reflexivity | discriminate]);
      try (right; do 2 eexists; split; reflexivity);
      try tauto;
      try (exfalso; destruct H as [H|[H|[]]]; discriminate H);
      try (exfalso; destruct H as [H|[]]; discriminate H);
      try (exfalso; destruct H as [[[tex' Ht] Hm] | (tm & m' & Ht & Hm)];
           congruence). }
  split.
  { unfold requestsOf. destruct (texture env), (mtl env); cbn; intros H;
      try reflexivity;
      try (exfalso; destruct H as [H|[H|[]]]; discriminate H);
      exfalso; destruct H as [H|[]]; discriminate H. }
  intros tmsg Ht. rewrite (run_InitOk _ Hi).
  by_outcomes env. subst. unfold loadModel. cbn [texture mtl obj].
  repeat split.
  - intros m o -> ->. callbacks. eexists. split; [reflexivity|].
    cbn [materials metadataOf]. rewrite materialSet_centred. reflexivity.
  - intros m msg -> ->. reflexivity.
  - intros msg ->. reflexivity.
Qed.

Lemma texture_failure_continues_witness :
  (exists md, loadState (run (envTextureFails triangle)) = Ready md /\
              materials md = size (materialSet triangle)) /\
  requests (run (envTextureStalls triangle)) = ["capsule0.jpg"].
Proof.
  split.
  - destruct (texture_failure_continues (envTextureFails triangle) eq_refl)
      as (_ & _ & _ & _ & _ & _ & H).
    exact (proj1 (H "404" eq_refl) someMaterials triangle eq_refl eq_refl).
  - destruct (texture_failure_continues (envTextureStalls triangle) eq_refl)
      as (_ & _ & H & _).
    exact (proj1 (H eq_refl)).
Defined.

(** *** Failure messages *)

(** The messages the component can show. *)
Definition failureMessages : list string :=
  [msgObjError; msgFallbackObjError; msgObjErrorNoTexture; msgMtlErrorNoTexture;
   msgInitError].

(** The messages the specification lists. *)
Definition specifiedMessages : list string :=
  ["model load error"; "failed to load model with or without materials";
   "initialization error"].

(** C5, as the claim states it, fails: when the geometry fails after
    texture and material library have loaded, the message is the
    component's own sentence, which is neither "model load error" nor
    any other of the three listed messages. *)
Lemma obj_failure_message_differs :
  obj envObjFails = Errored "404" /\
  loadState (run envObjFails) =
    Failed "Failed to load 3D model. Please check if model files exist in the correct location." /\
  loadState (run envObjFails) <> Failed "model load error" /\
  ~ In msgObjError specifiedMessages.
Proof.
  split; [reflexivity|]. split; [reflexivity|]. split.
  - intros H. discriminate H.
  - cbn. intros [H|[H|[H|[]]]]; discriminate H.
Qed.

(** C5, amended: a failure of the geometry after the material library
    has loaded ends the run failed, with the message [msgObjError] when
    the texture had loaded and [msgObjErrorNoTexture] when it had not; a
    failure of the fallback geometry gives [msgFallbackObjError]; and
    every message of a failed run is one of the five of
    [failureMessages]. *)
Theorem failure_messages env :
  (forall m msg, initOutcome env = InitOk -> mtl env = Loaded m ->
     obj env = Errored msg ->
     (forall tex, texture env = Loaded tex ->
        loadState (run env) = Failed msgObjError) /\
     (forall tmsg, texture env = Errored tmsg ->
        loadState (run env) = Failed msgObjErrorNoTexture)) /\
  (forall tex mmsg msg, initOutcome env = InitOk -> texture env = Loaded tex ->
     mtl env = Errored mmsg -> obj env = Errored msg ->
     loadState (run env) = Failed msgFallbackObjError) /\
  (forall msg, loadState (run env) = Failed msg -> In msg failureMessages).
Proof.
  split; [|split].
  - intros m msg Hi Hm Ho. rewrite (run_InitOk _ Hi). by_outcomes env. subst.
    unfold loadModel. cbn [texture mtl obj].
    split; [intros tex -> | intros tmsg ->]; reflexivity.
  - intros tex mmsg msg Hi Ht Hm Ho. rewrite (run_InitOk _ Hi). by_outcomes env.
    subst. reflexivity.
  - intros msg. unfold run, init. by_outcomes env.
    destruct io; [cbn; intros [= <-]; unfold failureMessages; cbn; tauto
                 | cbn; discriminate
                 | cbn; intros [= <-]; unfold failureMessages; cbn; tauto | ].
    unfold loadModel. cbn [texture mtl obj].
    destruct tx, ml, ob; callbacks; cbn;
      first [discriminate | intros [= <-]; unfold failureMessages; cbn; tauto].
Qed.

Lemma failure_messages_witness :
  loadState (run envObjFails) = Failed msgObjError /\
  In msgObjError failureMessages.
Proof.
  pose proof (failure_messages envObjFails) as (H1 & _ & H2).
  pose proof (proj1 (H1 someMaterials "404" eq_refl eq_refl eq_refl)
                someTexture eq_refl) as H.
  split; [exact H | exact (H2 _ H)].
Defined.

(** *** Both material library and geometry fail *)

(** The default content in the words of the specification: grid and
    axis helpers and lights. *)
Definition isDefaultContent (o : SceneObject) : bool :=
  match o with
  | GridHelper _ _ | AxesHelper _ | AmbientLight | DirectionalLight | PointLight => true
  | BoxMesh _ _ _ | Model _ | Box3Helper _ => false
  end.

(** C9, as the claim states it, fails: after the material library and
    the fallback geometry have failed, the scene also holds the red
    test cube that [init] adds "to verify rendering". *)
Lemma failed_scene_holds_test_cube :
  mtl envMtlAndObjFail = Errored "404" /\
  obj envMtlAndObjFail = Errored "404" /\
  loadState (run envMtlAndObjFail) = Failed msgFallbackObjError /\
  scene (run envMtlAndObjFail) = Some defaultScene /\
  In (BoxMesh (mkVector3 1 1 1) false origin) defaultScene /\
  forallb isDefaultContent defaultScene = false.
Proof.
  repeat split; try reflexivity. cbn. tauto.
Qed.

(** C9, amended: when the material library fails and the geometry
    fails, the run ends failed and the scene holds what [init] put
    there and nothing else: the two helpers, the three lights and the
    test cube; the pipeline has added no model, no box helper and no
    wireframe, and has left the camera alone. *)
Theorem mtl_and_obj_failure_leaves_init_scene env mmsg omsg :
  initOutcome env = InitOk -> texture env <> Stalled ->
  mtl env = Errored mmsg -> obj env = Errored omsg ->
  (exists msg, loadState (run env) = Failed msg) /\
  scene (run env) =
    Some [GridHelper 10 10; AxesHelper 5; AmbientLight; DirectionalLight; PointLight;
          BoxMesh (mkVector3 1 1 1) false origin] /\
  camera (run env) = Some (initialCamera (window env)) /\
  modelMetadata (run env) = None.
Proof.
  intros Hi Ht Hm Ho. rewrite (run_InitOk _ Hi). by_outcomes env. subst.
  unfold loadModel. cbn [texture mtl obj].
  destruct tx; [| |congruence]; (split; [eexists; reflexivity|]); repeat split.
Qed.

Lemma mtl_and_obj_failure_leaves_init_scene_witness :
  scene (run envMtlAndObjFail) = Some defaultScene.
Proof.
  refine (proj1 (proj2 (mtl_and_obj_failure_leaves_init_scene envMtlAndObjFail
                          "404" "404" eq_refl _ eq_refl eq_refl))).
  discriminate.
Defined.

(** *** The loading flag *)

(** Whether a terminal callback runs: the [catch] of [init], or the
    callback that ends the chain of loads. *)
Definition terminalCallbackFired (env : Env) : bool :=
  match initOutcome env with
  | ImportRejected | RendererThrows => true
  | NotMounted => false
  | InitOk =>
      match texture env, mtl env, obj env with
      | Stalled, _, _ => false
      | _, Stalled, _ => false
      | Errored _, Errored _, _ => true
      | _, _, Stalled => false
      | _, _, _ => true
      end
  end.

(** C10: every terminal callback ends with the loading flag cleared,
    so a run has the flag cleared exactly when a terminal callback has
    run, and it is then ready or failed, never loading. *)
Theorem terminal_callbacks_clear_loading :
  (forall tex o w, loading (objLoaded tex o w) = false) /\
  (forall tex o w, loading (fallbackObjLoaded tex o w) = false) /\
  (forall o w, loading (objLoadedNoTexture o w) = false) /\
  (forall w, loading (objError w) = false) /\
  (forall w, loading (fallbackObjError w) = false) /\
  (forall w, loading (objErrorNoTexture w) = false) /\
  (forall w, loading (mtlErrorNoTexture w) = false) /\
  (forall w, loading (catchInit w) = false) /\
  (forall env, loading (run env) = negb (terminalCallbackFired env)) /\
  (forall env, terminalCallbackFired env = true -> loadState (run env) <> Loading).
Proof.
  repeat split; intros; callbacks; try reflexivity.
  - unfold run, init, terminalCallbackFired. by_outcomes env.
    destruct io; try reflexivity. unfold loadModel. cbn [texture mtl obj].
    destruct tx, ml, ob; callbacks; reflexivity.
  - revert H. unfold run, init, terminalCallbackFired. by_outcomes env.
    destruct io; try discriminate; try (intros _; cbn; discriminate).
    unfold loadModel. cbn [texture mtl obj].
    destruct tx, ml, ob; callbacks; cbn; discriminate.
Qed.

Lemma terminal_callbacks_clear_loading_witness :
  loading (run envMtlAndObjFail) = false /\
  loadState (run envMtlAndObjFail) <> Loading.
Proof.
  pose proof terminal_callbacks_clear_loading
    as (_ & _ & _ & _ & _ & _ & _ & _ & H1 & H2).
  split; [exact (H1 envMtlAndObjFail) | exact (H2 envMtlAndObjFail eq_refl)].
Defined.

End Runs.

(** ** Shared facts about runs *)

Module RunFacts.

Import THREE Viewer Graph Callbacks Samples Runs.

Lemma loadState_ready_world md' l sc c st rq md :
  loadState (mkWorld (Some md') l None sc c st rq) = Ready md -> md = md'.
Proof. cbn. congruence. Qed.

(** The state the load callbacks start from: [init]'s scene, camera and
    store, whatever has been requested since. *)
Lemma store_requested a b c win :
  store (request a (request b (request c (mounted win)))) =
    [mkPhongParams (Some 16711680%N) None None (Some true) (Some (1 / 2)%R)].
Proof. reflexivity. Qed.

Lemma scene_requested a b c win :
  scene (request a (request b (request c (mounted win)))) = Some defaultScene.
Proof. reflexivity. Qed.

Lemma camera_requested a b c win :
  camera (request a (request b (request c (mounted win)))) =
    Some (initialCamera win).
Proof. reflexivity. Qed.

Lemma error_requested a b c win :
  error (request a (request b (request c (mounted win)))) = None.
Proof. reflexivity. Qed.

Lemma meshCount_centred o : meshCount (centred o) = meshCount o.
Proof. apply meshCount_centerObject. Qed.

End RunFacts.

(** ** Integers in binary64 *)

Module Binary64.

Import Stdlib.Floats.Floats.
Import Viewer.

Local Open Scope Z_scope.

(** The double of an integer, as [of_uint63] rounds it. *)
Definition ofZ (n : Z) : float := of_uint63 (Uint63.of_Z n).

(** The IEEE 754 datum of a positive integer of at most 53 bits: the
    mantissa shifted to 53 bits, with the exponent to match. *)
Definition canon (p : positive) : spec_float :=
  S754_finite false (Z.to_pos (Zpos p * 2 ^ (53 - Zpos (digits2_pos p))))
    (Zpos (digits2_pos p) - 53).

Definition SFofZ (n : Z) : spec_float :=
  match n with
  | Zpos p => canon p
  | _ => S754_zero false
  end.

(** The datum of the double 3. *)
Definition three64 : spec_float := S754_finite false 6755399441055744 (-51).

Lemma digits2_pos_size p : digits2_pos p = Pos.size p.
Proof. induction p; cbn; congruence. Qed.

Lemma digits_log2 p : Zpos (digits2_pos p) = Z.log2 (Zpos p) + 1.
Proof. rewrite digits2_pos_size. destruct p; cbn; lia. Qed.

Lemma pos_iter_xO p n : Zpos (Pos.iter xO p n) = Zpos p * 2 ^ Zpos n.
Proof.
  induction n as [|n IH] using Pos.peano_ind.
  - cbn. lia.
  - rewrite Pos.iter_succ, Pos2Z.inj_succ, Z.pow_succ_r by lia.
    rewrite Pos2Z.inj_xO, IH. lia.
Qed.

Lemma iter_pos_iter {A} (f : A -> A) n : forall x, iter_pos f n x = Pos.iter f x n.
Proof.
  induction n as [n IH|n IH|]; intros x; cbn.
  - rewrite !IH. rewrite <- Pos.iter_swap. rewrite <- Pos.iter_swap. reflexivity.
  - rewrite !IH. reflexivity.
  - reflexivity.
Qed.

Lemma shr_iter_xO q n :
  iter_pos shr_1 n (Build_shr_record (Zpos (Pos.iter xO q n)) false false)
  = Build_shr_record (Zpos q) false false.
Proof.
  rewrite iter_pos_iter.
  induction n as [|n IH] using Pos.peano_ind.
  - reflexivity.
  - rewrite Pos.iter_succ_r. rewrite Pos.iter_succ. cbn [shr_1 orb]. exact IH.
Qed.

Lemma fexp_eq e : fexp prec emax e = Z.max (e - 53) (-1074).
Proof. reflexivity. Qed.

(** Rounding a mantissa whose low bits are all zero drops them and
    nothing else. *)
Lemma binary_round_aux_exact s M e q t :
  0 <= t - e ->
  Zpos M = Zpos q * 2 ^ (t - e) ->
  t = fexp prec emax (Zpos (digits2_pos M) + e) ->
  t <= 971 ->
  binary_round_aux prec emax s (Zpos M) e loc_Exact = S754_finite s q t.
Proof.
  intros Hn HM Ht Hmax.
  assert (Hdq : Zpos (digits2_pos q) + t = Zpos (digits2_pos M) + e).
  { rewrite !digits_log2, HM, Z.log2_mul_pow2 by lia. lia. }
  unfold binary_round_aux, shr_fexp.
  cbn [Zdigits2 shr_record_of_loc]. rewrite <- Ht.
  destruct (t - e) as [|n|n] eqn:En; try lia.
  - assert (M = q) by lia. subst M. assert (e = t) by lia. subst e.
    cbn [shr shr_m loc_of_shr_record round_nearest_even Zdigits2 shr_record_of_loc].
    rewrite <- Ht. rewrite Z.sub_diag.
    cbn [shr shr_m].
    destruct (Z.leb_spec t (emax - prec)) as [_|H]; [reflexivity|].
    change (emax - prec) with 971 in H. lia.
  - assert (M = Pos.iter xO q n).
    { apply Pos2Z.inj. rewrite pos_iter_xO. exact HM. }
    subst M. cbn [shr]. rewrite shr_iter_xO.
    cbn [shr_m loc_of_shr_record round_nearest_even Zdigits2 shr_record_of_loc].
    replace (e + Zpos n) with t by lia.
    rewrite Hdq, <- Ht, Z.sub_diag. cbn [shr shr_m].
    destruct (Z.leb_spec t (emax - prec)) as [_|H]; [reflexivity|].
    change (emax - prec) with 971 in H. lia.
Qed.

Lemma digits_mul_pow2 M q n :
  0 <= n -> Zpos M = Zpos q * 2 ^ n ->
  Zpos (digits2_pos M) = Zpos (digits2_pos q) + n.
Proof. intros Hn H. rewrite !digits_log2, H, Z.log2_mul_pow2 by lia. lia. Qed.

Lemma digits_le a b : (a <= b)%positive -> Zpos (digits2_pos a) <= Zpos (digits2_pos b).
Proof.
  intros H. rewrite !digits_log2. apply Z.add_le_mono_r, Z.log2_le_mono. lia.
Qed.

Lemma digits_bound p : Zpos p < 2 ^ 53 -> Zpos (digits2_pos p) <= 53.
Proof.
  intros H. rewrite digits_log2.
  assert (Z.log2 (Zpos p) < 53) by (apply Z.log2_lt_pow2; lia). lia.
Qed.

Lemma canon_mantissa p :
  Zpos (digits2_pos p) <= 53 ->
  Zpos (Z.to_pos (Zpos p * 2 ^ (53 - Zpos (digits2_pos p)))) =
  Zpos p * 2 ^ (53 - Zpos (digits2_pos p)).
Proof.
  intros H. rewrite Z2Pos.id; [reflexivity|].
  assert (0 < 2 ^ (53 - Zpos (digits2_pos p))) by (apply Z.pow_pos_nonneg; lia). lia.
Qed.

Lemma shl_align_value m e e' :
  e' <= e ->
  Zpos (fst (shl_align m e e')) = Zpos m * 2 ^ (e - e').
Proof.
  intros H. unfold shl_align.
  destruct (e' - e) as [|k|k] eqn:Ek; try lia; cbn [fst].
  - replace (e - e') with 0 by lia. lia.
  - rewrite pos_iter_xO. replace (e - e') with (Zpos k) by lia. reflexivity.
Qed.

Lemma shl_align_id m e e' : e <= e' -> shl_align m e e' = (m, e).
Proof.
  intros H. unfold shl_align. destruct (e' - e) as [|k|k] eqn:Ek; try lia; reflexivity.
Qed.

(** An integer of at most 53 bits converts without rounding. *)
Lemma canon_of_pos p :
  Zpos (digits2_pos p) <= 53 ->
  binary_normalize prec emax (Zpos p) 0 false = canon p.
Proof.
  intros Hd. unfold binary_normalize, binary_round, canon.
  set (d := Zpos (digits2_pos p)) in *.
  rewrite fexp_eq. replace (Z.max (d + 0 - 53) (-1074)) with (d - 53) by lia.
  unfold shl_align.
  assert (Hpow : 0 < 2 ^ (53 - d)) by (apply Z.pow_pos_nonneg; lia).
  assert (Hq : Zpos (Z.to_pos (Zpos p * 2 ^ (53 - d))) = Zpos p * 2 ^ (53 - d)).
  { rewrite Z2Pos.id; [reflexivity | lia]. }
  destruct (d - 53 - 0) as [|k|k] eqn:Ek; try lia.
  - (* d = 53 *)
    apply binary_round_aux_exact.
    + lia.
    + rewrite Hq. replace (53 - d) with 0 by lia. replace (d - 53 - 0) with 0 by lia. lia.
    + fold d. rewrite fexp_eq. lia.
    + lia.
  - apply binary_round_aux_exact.
    + lia.
    + rewrite Hq, pos_iter_xO. replace (d - 53 - (d - 53)) with 0 by lia.
      replace (53 - d) with (Zpos k) by lia. lia.
    + rewrite (digits_mul_pow2 _ p (Zpos k)) by (try lia; apply pos_iter_xO).
      fold d. rewrite fexp_eq. lia.
    + lia.
Qed.

(** The sum of two such integers, when it has at most 53 bits, is exact. *)
Lemma SFadd_canon a b :
  Zpos (digits2_pos (a + b)) <= 53 ->
  SFadd prec emax (canon a) (canon b) = canon (a + b).
Proof.
  intros Hd.
  pose proof (digits_le a (a + b) ltac:(lia)) as Ha.
  pose proof (digits_le b (a + b) ltac:(lia)) as Hb.
  set (da := Zpos (digits2_pos a)) in *.
  set (db := Zpos (digits2_pos b)) in *.
  set (d := Zpos (digits2_pos (a + b))) in *.
  unfold SFadd, canon. fold da db d. cbn [cond_Zopp].
  set (ez := Z.min (da - 53) (db - 53)).
  set (ma := Z.to_pos (Zpos a * 2 ^ (53 - da))).
  set (mb := Z.to_pos (Zpos b * 2 ^ (53 - db))).
  assert (Hma : Zpos ma = Zpos a * 2 ^ (53 - da)) by (apply canon_mantissa; fold da; lia).
  assert (Hmb : Zpos mb = Zpos b * 2 ^ (53 - db)) by (apply canon_mantissa; fold db; lia).
  assert (HA : Zpos (fst (shl_align ma (da - 53) ez)) = Zpos a * 2 ^ (- ez)).
  { rewrite shl_align_value by lia. rewrite Hma, <- Z.mul_assoc, <- Z.pow_add_r by lia.
    f_equal. f_equal. lia. }
  assert (HB : Zpos (fst (shl_align mb (db - 53) ez)) = Zpos b * 2 ^ (- ez)).
  { rewrite shl_align_value by lia. rewrite Hmb, <- Z.mul_assoc, <- Z.pow_add_r by lia.
    f_equal. f_equal. lia. }
  assert (Hpow : 0 < 2 ^ (- ez)) by (apply Z.pow_pos_nonneg; lia).
  destruct (Zpos (fst (shl_align ma (da - 53) ez)) + Zpos (fst (shl_align mb (db - 53) ez)))
    as [|M|M] eqn:EM; try lia.
  assert (HM : Zpos M = Zpos (a + b) * 2 ^ (- ez)).
  { rewrite <- EM, HA, HB, Pos2Z.inj_add. lia. }
  unfold binary_normalize, binary_round.
  assert (HdM : Zpos (digits2_pos M) = d + - ez).
  { apply digits_mul_pow2; [lia | exact HM]. }
  rewrite HdM, fexp_eq.
  replace (Z.max (d + - ez + ez - 53) (-1074)) with (d - 53) by lia.
  rewrite shl_align_id by lia.
  apply binary_round_aux_exact.
  - lia.
  - rewrite HM, canon_mantissa by (fold d; lia). fold d.
    rewrite <- Z.mul_assoc, <- Z.pow_add_r by lia. f_equal. f_equal. lia.
  - rewrite HdM, fexp_eq. lia.
  - lia.
Qed.

Lemma div_eucl_exact a b q : 0 < b -> a = b * q -> Z.div_eucl a b = (q, 0).
Proof.
  intros Hb ->. pose proof (Z.div_eucl_eq (b * q) b ltac:(lia)) as H.
  pose proof (Z.mod_pos_bound (b * q) b Hb) as Hm.
  unfold Z.modulo in Hm. destruct (Z.div_eucl (b * q) b) as [q' r].
  assert (r = 0).
  { assert (b * (q - q') = r) by lia.
    destruct (Z.eq_dec q q') as [->|Hne]; [lia|]. nia. }
  subst r. f_equal. nia.
Qed.

(** A multiple of 3 divided by 3 is exact. *)
Lemma SFdiv_canon_three k :
  Zpos (digits2_pos (3 * k)) <= 53 ->
  SFdiv prec emax (canon (3 * k)) three64 = canon k.
Proof.
  intros Hd.
  pose proof (digits_le k (3 * k) ltac:(lia)) as Hk.
  assert (Hk2 : Zpos (digits2_pos (3 * k)) <= Zpos (digits2_pos k) + 2).
  { rewrite !digits_log2.
    assert (Z.log2 (Zpos (3 * k)) <= Z.log2 (Zpos k * 2 ^ 2)) by (apply Z.log2_le_mono; lia).
    rewrite Z.log2_mul_pow2 in H by lia. lia. }
  assert (H2 : 2 <= Zpos (digits2_pos (3 * k))).
  { rewrite digits_log2. assert (Z.log2 3 <= Z.log2 (Zpos (3 * k))) by (apply Z.log2_le_mono; lia).
    change (Z.log2 3) with 1 in H. lia. }
  set (dk := Zpos (digits2_pos k)) in *.
  set (d3 := Zpos (digits2_pos (3 * k))) in *.
  unfold SFdiv, canon, three64. fold dk d3. cbn [xorb].
  set (m1 := Z.to_pos (Zpos (3 * k) * 2 ^ (53 - d3))).
  assert (Hm1 : Zpos m1 = Zpos (3 * k) * 2 ^ (53 - d3)) by (apply canon_mantissa; fold d3; lia).
  assert (Hdm1 : Zpos (digits2_pos m1) = 53).
  { rewrite (digits_mul_pow2 m1 (3 * k) (53 - d3)) by (lia || exact Hm1). fold d3. lia. }
  unfold SFdiv_core_binary. cbn [Zdigits2]. rewrite Hdm1.
  change (Zpos (digits2_pos 6755399441055744)) with 53.
  rewrite fexp_eq.
  replace (IntDef.Z.min (Z.max (53 + (d3 - 53) - (53 + -51) - 53) (-1074)) (d3 - 53 - -51))
    with (d3 - 55) by (change IntDef.Z.min with Z.min; lia).
  replace (d3 - 53 - -51 - (d3 - 55)) with 53 by lia.
  change (IntDef.Z.shiftl (Zpos m1) 53) with (Z.shiftl (Zpos m1) 53).
  change IntDef.Z.div_eucl with Z.div_eucl.
  assert (Hp : 0 < 2 ^ (55 - d3)) by (apply Z.pow_pos_nonneg; lia).
  rewrite (div_eucl_exact (Z.shiftl (Zpos m1) 53) 6755399441055744 (Zpos k * 2 ^ (55 - d3))).
  2: lia.
  2:{ rewrite Z.shiftl_mul_pow2 by lia. rewrite Hm1.
      replace (55 - d3) with ((53 - d3) + 2) by lia.
      rewrite Z.pow_add_r by lia. rewrite Pos2Z.inj_mul. lia. }
  change (new_location 6755399441055744 0) with loc_Exact.
  destruct (Zpos k * 2 ^ (55 - d3)) as [|Q|Q] eqn:EQ; try lia.
  apply binary_round_aux_exact.
  - lia.
  - rewrite canon_mantissa by (fold dk; lia). fold dk.
    rewrite <- Z.mul_assoc, <- Z.pow_add_r by lia. rewrite <- EQ. f_equal. f_equal. lia.
  - rewrite (digits_mul_pow2 Q k (55 - d3)) by (lia || (rewrite <- EQ; reflexivity)).
    fold dk. rewrite fexp_eq. lia.
  - lia.
Qed.

Local Open Scope float_scope.

Lemma Prim2SF_ofZ n : (0 <= n < 2 ^ 53)%Z -> Prim2SF (ofZ n) = SFofZ n.
Proof.
  intros Hn. unfold ofZ. rewrite of_uint63_spec, Uint63.of_Z_spec.
  rewrite Z.mod_small.
  2:{ split; [lia|]. apply Z.lt_trans with (2 ^ 53)%Z; [lia|]. reflexivity. }
  destruct n as [|p|p]; try lia.
  - reflexivity.
  - apply canon_of_pos, digits_bound. lia.
Qed.

(** Below 2^53 the doubles of the integers add as the integers do. *)
Lemma ofZ_add a b :
  (0 <= a)%Z -> (0 <= b)%Z -> (a + b < 2 ^ 53)%Z -> ofZ a + ofZ b = ofZ (a + b).
Proof.
  intros Ha Hb Hab. apply Prim2SF_inj.
  rewrite add_spec, !Prim2SF_ofZ by lia. unfold SF64add.
  destruct a as [|a|a], b as [|b|b]; try lia; try reflexivity.
  cbn [SFofZ Z.add]. apply SFadd_canon, digits_bound. lia.
Qed.

(** The JavaScript quotient [(3 * k) / 3] is [k]. *)
Lemma ofZ_div3 k : (0 <= 3 * k < 2 ^ 53)%Z -> ofZ (3 * k) / 3 = ofZ k.
Proof.
  intros Hk. apply Prim2SF_inj.
  rewrite div_spec, !Prim2SF_ofZ by lia. unfold SF64div.
  change (Prim2SF 3) with three64.
  destruct k as [|k|k]; try lia; try reflexivity.
  change (3 * Zpos k)%Z with (Zpos (3 * k)). cbn [SFofZ].
  apply SFdiv_canon_three, digits_bound. lia.
Qed.



(** What one mesh adds to the face count, when its buffer count is a
    multiple of 3. *)
Lemma add_third a n :
  (0 <= a)%Z -> Nat.modulo n 3 = 0%nat -> (a + Z.of_nat n < 2 ^ 53)%Z ->
  ofZ a + third n = ofZ (a + Z.of_nat (Nat.div n 3)).
Proof.
  intros Ha Hn Hb.
  assert (Hk : Z.of_nat n = (3 * Z.of_nat (Nat.div n 3))%Z).
  { pose proof (Nat.div_mod_eq n 3) as H. rewrite Hn in H. lia. }
  unfold third, ofNat. fold (ofZ (Z.of_nat n)). rewrite Hk.
  rewrite ofZ_div3 by lia. apply ofZ_add; lia.
Qed.

End Binary64.

(** ** Face count *)

Module Faces.

Import THREE Viewer Samples Binary64.
Import Stdlib.Floats.PrimFloat.

(** The count the face formula looks at: the length of the index
    buffer of a mesh when it has one, else the number of its vertex
    positions. *)
Definition relevantCount (child : Object3D) : nat :=
  if isMesh child then
    match geometry child with
    | Some geometry =>
        match index geometry with
        | Some index => length index
        | None =>
            match position_attr geometry with
            | Some position => length position
            | None => 0
            end
        end
    | None => 0
    end
  else 0.

(** Modelled from the spec: the face count as the sum over the meshes
    of the integer quotients, index-buffer length div 3 or else vertex
    count div 3. *)
Definition truncatedFaceCount (object : Object3D) : nat :=
  list_sum (map (fun child => Nat.div (relevantCount child) 3) (traverse object)).

Definition relevantTotal (object : Object3D) : nat :=
  list_sum (map relevantCount (traverse object)).

(** A triangle mesh, as [OBJLoader] builds its meshes: every face of the
    file is emitted as triangles, three buffer entries each, so the
    count the formula looks at is a multiple of 3 in every mesh. *)
Definition triangulated (object : Object3D) : Prop :=
  Forall (fun child => Nat.modulo (relevantCount child) 3 = 0%nat) (traverse object).

(** One step of the traversal callback of [countFaces]. *)
Definition addFaces (count : float) (child : Object3D) : float :=
  if isMesh child then
    match geometry child with
    | Some geometry =>
        match index geometry with
        | Some index => add count (third (length index))
        | None =>
            match position_attr geometry with
            | Some position => add count (third (length position))
            | None => count
            end
        end
    | None => count
    end
  else count.

Lemma countFaces_fold o : countFaces o = fold_left addFaces (traverse o) 0%float.
Proof. reflexivity. Qed.

Lemma addFaces_exact a c :
  (0 <= a)%Z -> Nat.modulo (relevantCount c) 3 = 0%nat ->
  (a + Z.of_nat (relevantCount c) < 2 ^ 53)%Z ->
  addFaces (ofZ a) c = ofZ (a + Z.of_nat (Nat.div (relevantCount c) 3)).
Proof.
  unfold addFaces, relevantCount. intros Ha Hc Hb.
  destruct (isMesh c); [|rewrite Z.add_0_r; reflexivity].
  destruct (geometry c) as [g|]; [|rewrite Z.add_0_r; reflexivity].
  destruct (index g) as [idx|]; [apply add_third; assumption|].
  destruct (position_attr g) as [ps|]; [apply add_third; assumption|].
  rewrite Z.add_0_r. reflexivity.
Qed.

Lemma fold_faces_exact l : forall a,
  (0 <= a)%Z ->
  Forall (fun child => Nat.modulo (relevantCount child) 3 = 0%nat) l ->
  (a + Z.of_nat (list_sum (map relevantCount l)) < 2 ^ 53)%Z ->
  fold_left addFaces l (ofZ a) =
    ofZ (a + Z.of_nat (list_sum (map (fun child => Nat.div (relevantCount child) 3) l))).
Proof.
  induction l as [|c l IH]; intros a Ha Hall Hb.
  - cbn. rewrite Z.add_0_r. reflexivity.
  - apply Forall_cons in Hall as [Hc Hl].
    change (list_sum (map relevantCount (c :: l)))
      with (relevantCount c + list_sum (map relevantCount l))%nat in Hb.
    change (list_sum (map (fun child => Nat.div (relevantCount child) 3) (c :: l)))
      with (Nat.div (relevantCount c) 3
            + list_sum (map (fun child => Nat.div (relevantCount child) 3) l))%nat.
    pose proof (Nat.Div0.mul_div_le (relevantCount c) 3) as Hdiv.
    cbn [fold_left]. rewrite addFaces_exact by (assumption || lia).
    rewrite IH by (assumption || lia). f_equal. lia.
Qed.

Lemma thirds_total l :
  Forall (fun child => Nat.modulo (relevantCount child) 3 = 0%nat) l ->
  (3 * list_sum (map (fun child => Nat.div (relevantCount child) 3) l))%nat =
    list_sum (map relevantCount l).
Proof.
  induction 1 as [|c l Hc _ IH]; [reflexivity|].
  change (list_sum (map relevantCount (c :: l)))
    with (relevantCount c + list_sum (map relevantCount l))%nat.
  change (list_sum (map (fun child => Nat.div (relevantCount child) 3) (c :: l)))
    with (Nat.div (relevantCount c) 3
          + list_sum (map (fun child => Nat.div (relevantCount child) 3) l))%nat.
  pose proof (Nat.div_mod_eq (relevantCount c) 3) as H. rewrite Hc in H. lia.
Qed.

Lemma countFaces_triangulated o :
  triangulated o -> (Z.of_nat (relevantTotal o) < 2 ^ 53)%Z ->
  countFaces o = ofNat (truncatedFaceCount o).
Proof.
  intros Ht Hb. rewrite countFaces_fold. change 0%float with (ofZ 0).
  rewrite fold_faces_exact; [reflexivity | lia | exact Ht | exact Hb].
Qed.

(** The function itself does not round down: on a hand-built mesh of
    four positions and no index buffer, which no triangle mesh is, it
    returns the double nearest to 4/3. *)
Example countFaces_quad : countFaces quad = 0x1.5555555555555p+0%float.
Proof. vm_compute. reflexivity. Qed.

(** Two indexed triangles make 2 faces, the indexed cube 12. *)
Example countFaces_cube :
  countFaces twoMeshes = 2%float /\ countFaces cube = 12%float.
Proof. split; vm_compute; reflexivity. Qed.



End Faces.

(** ** Bounding box and camera framing *)

Module Framing.

Import THREE Viewer Graph Callbacks Samples Runs RunFacts.

Local Open Scope R_scope.

(** A box that is empty or has its corners in order. *)
Definition ordered (b : Box3) : Prop :=
  match b with
  | Box3_empty => True
  | Box3_mk lo hi => x lo <= x hi /\ y lo <= y hi /\ z lo <= z hi
  end.

Lemma expandByPoint_ordered b p : ordered b -> ordered (expandByPoint b p).
Proof.
  destruct b as [|lo hi]; cbn.
  - intros _. repeat split; apply Rle_refl.
  - intros (Hx & Hy & Hz).
    repeat split; (eapply Rle_trans; [apply Rmin_l|]);
      (eapply Rle_trans; [|apply Rmax_l]); assumption.
Qed.

Lemma fold_expand_ordered l : forall b,
  ordered b -> ordered (fold_left expandByPoint l b).
Proof.
  induction l as [|p l IH]; intros b Hb; [exact Hb|].
  cbn [fold_left]. apply IH, expandByPoint_ordered, Hb.
Qed.

Lemma getSize_nonneg b :
  ordered b -> 0 <= x (getSize b) /\ 0 <= y (getSize b) /\ 0 <= z (getSize b).
Proof.
  destruct b as [|lo hi]; cbn.
  - intros _. repeat split; apply Rle_refl.
  - intros (Hx & Hy & Hz). repeat split; lra.
Qed.

Lemma maxDimension_nonneg o : 0 <= maxDimension (snapshotSize o).
Proof.
  unfold maxDimension, snapshotSize, setFromObject.
  destruct (getSize_nonneg (fold_left expandByPoint (worldPoints origin o) Box3_empty))
    as (Hx & _); [apply fold_expand_ordered; exact I|].
  eapply Rle_trans; [exact Hx|].
  eapply Rle_trans; [apply Rmax_l|apply Rmax_l].
Qed.

(** Half a field of view in (0, PI) has a positive sine. *)
Lemma sin_half_pos fov : 0 < fov -> fov < PI -> 0 < sin (fov / 2).
Proof.
  intros H0 H1. apply sin_gt_0; lra.
Qed.

Lemma cameraDistance_formula maxDim fov :
  0 <= maxDim -> 0 < fov -> fov < PI ->
  cameraDistance maxDim fov = maxDim / sin (fov / 2) * 2.
Proof.
  intros Hd H0 H1. unfold cameraDistance.
  pose proof (sin_half_pos fov H0 H1) as Hs.
  rewrite Rabs_right; [reflexivity|].
  apply Rle_ge. unfold Rdiv. apply Rmult_le_pos; [exact Hd|].
  left. apply Rinv_0_lt_compat, Hs.
Qed.

(** The field of view of the component's camera, in radians. *)
Definition fov75 : R := 75 * (PI / 180).

Lemma fov75_range : 0 < fov75 /\ fov75 < PI.
Proof. unfold fov75. pose proof PI_RGT_0. split; lra. Qed.

(** *** Monotonicity of the camera distance *)

(** C8: for a field of view in (0, PI) the camera distance
    [(maxDim / sin (fov / 2)) * 2] grows strictly with [maxDim > 0], and
    for [maxDim > 0] it falls strictly as the field of view grows within
    (0, PI). *)
Theorem cameraDistance_monotone :
  (forall fov d1 d2, 0 < fov -> fov < PI -> 0 < d1 -> d1 < d2 ->
     cameraDistance d1 fov < cameraDistance d2 fov) /\
  (forall maxDim f1 f2, 0 < maxDim -> 0 < f1 -> f1 < f2 -> f2 < PI ->
     cameraDistance maxDim f2 < cameraDistance maxDim f1) /\
  (forall maxDim fov, 0 < maxDim -> 0 < fov -> fov < PI ->
     cameraDistance maxDim fov = maxDim / sin (fov / 2) * 2).
Proof.
  split; [|split].
  - intros fov d1 d2 H0 H1 Hd1 Hd.
    rewrite !cameraDistance_formula by lra.
    pose proof (sin_half_pos fov H0 H1) as Hs.
    apply Rmult_lt_compat_r; [lra|]. unfold Rdiv.
    apply Rmult_lt_compat_r; [apply Rinv_0_lt_compat, Hs | exact Hd].
  - intros d f1 f2 Hd H0 Hf H1.
    rewrite !cameraDistance_formula by lra.
    assert (Hs1 : 0 < sin (f1 / 2)) by (apply sin_half_pos; lra).
    assert (Hs2 : 0 < sin (f2 / 2)) by (apply sin_half_pos; lra).
    assert (Hs : sin (f1 / 2) < sin (f2 / 2)).
    { pose proof PI_RGT_0. apply sin_increasing_1; lra. }
    apply Rmult_lt_compat_r; [lra|]. unfold Rdiv.
    apply Rmult_lt_compat_l; [exact Hd|].
    apply Rinv_lt_contravar; [apply Rmult_lt_0_compat; assumption | exact Hs].
  - intros d fov Hd H0 H1. apply cameraDistance_formula; lra.
Qed.

Lemma cameraDistance_monotone_witness :
  cameraDistance 1 1 < cameraDistance 2 1 /\
  cameraDistance 1 2 < cameraDistance 1 1.
Proof.
  pose proof cameraDistance_monotone as (Hinc & Hdec & _).
  pose proof PI2_1 as Hpi.
  split.
  - apply (Hinc 1 1 2); lra.
  - apply (Hdec 1 1 2); lra.
Defined.

(** *** Camera framing on load completion *)

Lemma maxDimension_triangle : maxDimension (snapshotSize triangle) = 2.
Proof.
  unfold maxDimension, snapshotSize, setFromObject, triangle, origin.
  cbn [worldPoints fold_left expandByPoint getSize flat_map map app add sub x y z].
  unfold Rmax, Rmin. repeat destruct Rle_dec; lra.
Qed.

(** C6, as the claim states it, fails: in the degraded run in which
    the material library fails and the geometry loads, the camera stays
    where [init] put it, at (0, 2, 5); the model's largest extent is 2,
    so framing would have put it at height 1. *)
Lemma degraded_load_leaves_camera :
  (exists md, loadState (run (envMtlFails triangle)) = Ready md) /\
  cam_position <$> camera (run (envMtlFails triangle)) = Some (mkVector3 0 2 5) /\
  cam_position <$> camera (run (envMtlFails triangle)) <>
    Some (mkVector3 0 (maxDimension (snapshotSize triangle) / 2)
            (maxDimension (snapshotSize triangle) / sin (fov75 / 2) * 2)).
Proof.
  rewrite run_InitOk by reflexivity. unfold loadModel, envMtlFails.
  cbn [texture mtl obj]. callbacks. split; [eexists; reflexivity|].
  split; [reflexivity|]. rewrite maxDimension_triangle.
  cbn [camera request mounted addTestCube createControls createCamera createScene
       sceneAdd setScene setStore setCamera fmap option_fmap option_map
       cam_position lookAt updateProjectionMatrix initialWorld].
  intros [= H]. lra.
Qed.

(** C6, amended: in every run in which texture, material library and
    geometry all load, load completion puts the camera at
    (0, maxDim / 2, distance), with maxDim the largest extent of the
    box taken before the translation and
    distance = (maxDim / sin (fov / 2)) * 2 for the camera's field of
    view of 75 degrees in radians, aims it at the origin, sets near to
    0.1 and far to 1000 and recomputes the projection matrix.  In every
    run in which the texture or the material library failed the camera
    is the one [init] made, at (0, 2, 5), whatever the geometry request
    does; and the two degraded runs in which the geometry loads do end
    ready. *)
Theorem full_load_frames_camera env :
  initOutcome env = InitOk ->
  (forall tex m o,
     texture env = Loaded tex -> mtl env = Loaded m -> obj env = Loaded o ->
     exists c,
       camera (run env) = Some c /\
       cam_position c =
         mkVector3 0 (maxDimension (snapshotSize o) / 2)
           (maxDimension (snapshotSize o) / sin (fov75 / 2) * 2) /\
       target c = Some (mkVector3 0 0 0) /\
       near c = 1 / 10 /\ far c = 1000 /\ fov c = 75 /\
       projection c = (fov c, aspect c, near c, far c)) /\
  (forall msg, texture env = Errored msg \/ mtl env = Errored msg ->
     camera (run env) = Some (initialCamera (window env)) /\
     cam_position <$> camera (run env) = Some (mkVector3 0 2 5)) /\
  (forall o, obj env = Loaded o ->
     (exists tex msg, texture env = Loaded tex /\ mtl env = Errored msg) \/
     (exists msg m, texture env = Errored msg /\ mtl env = Loaded m) ->
     exists md, loadState (run env) = Ready md).
Proof.
  intros Hi. rewrite (run_InitOk _ Hi). by_outcomes env. clear Hi.
  unfold loadModel. cbn [texture mtl obj]. split; [|split].
  - intros tex m o -> -> ->. callbacks.
    eexists. split; [reflexivity|].
    cbn [frameCamera updateProjectionMatrix setPosition setNear setFar cam_position
         target near far fov aspect projection initialCamera lookAt].
    split; [|repeat split].
    fold fov75. rewrite cameraDistance_formula;
      [reflexivity | apply maxDimension_nonneg | apply fov75_range | apply fov75_range].
  - intros msg [-> | ->].
    + destruct ml as [m|mmsg|]; [destruct ob as [o|omsg|]| |];
        callbacks; split; reflexivity.
    + destruct tx as [tex|tmsg|]; [destruct ob as [o|omsg|]| |];
        callbacks; split; reflexivity.
  - intros o -> [(tex & msg & -> & ->) | (msg & m & -> & ->)];
      callbacks; eexists; reflexivity.
Qed.

Lemma full_load_frames_camera_witness :
  (exists c, camera (run (envAllLoaded triangle)) = Some c /\
             target c = Some (mkVector3 0 0 0) /\ far c = 1000) /\
  cam_position <$> camera (run (envMtlFails triangle)) = Some (mkVector3 0 2 5).
Proof.
  split.
  - destruct (proj1 (full_load_frames_camera (envAllLoaded triangle) eq_refl)
                someTexture someMaterials triangle eq_refl eq_refl eq_refl)
      as (c & Hc & _ & Ht & _ & Hf & _).
    exists c. repeat split; assumption.
  - apply (proj1 (proj2 (full_load_frames_camera (envMtlFails triangle) eq_refl))
             "404"%string).
    right. reflexivity.
Defined.

(** *** One snapshot of the bounding box *)

Definition dimensionsOf (size : Vector3) : Dimensions :=
  mkDimensions (x size) (y size) (z size).

(** The extents of a set of points: [lo] and [hi] enclose every point,
    and each of their six coordinates is that of some point. *)
Definition extentsOf (pts : list Vector3) (lo hi : Vector3) : Prop :=
  (forall p, In p pts ->
     x lo <= x p <= x hi /\ y lo <= y p <= y hi /\ z lo <= z p <= z hi) /\
  (exists p, In p pts /\ x p = x lo) /\
  (exists p, In p pts /\ y p = y lo) /\
  (exists p, In p pts /\ z p = z lo) /\
  (exists p, In p pts /\ x p = x hi) /\
  (exists p, In p pts /\ y p = y hi) /\
  (exists p, In p pts /\ z p = z hi).

(** A set of points has its extents, and no others. *)
Lemma extentsOf_unique pts lo hi lo' hi' :
  extentsOf pts lo hi -> extentsOf pts lo' hi' -> lo = lo' /\ hi = hi'.
Proof.
  intros (He & (a1 & Ha1 & E1) & (a2 & Ha2 & E2) & (a3 & Ha3 & E3)
             & (a4 & Ha4 & E4) & (a5 & Ha5 & E5) & (a6 & Ha6 & E6))
         (He' & (b1 & Hb1 & F1) & (b2 & Hb2 & F2) & (b3 & Hb3 & F3)
              & (b4 & Hb4 & F4) & (b5 & Hb5 & F5) & (b6 & Hb6 & F6)).
  pose proof (He' a1 Ha1). pose proof (He' a2 Ha2). pose proof (He' a3 Ha3).
  pose proof (He' a4 Ha4). pose proof (He' a5 Ha5). pose proof (He' a6 Ha6).
  pose proof (He b1 Hb1). pose proof (He b2 Hb2). pose proof (He b3 Hb3).
  pose proof (He b4 Hb4). pose proof (He b5 Hb5). pose proof (He b6 Hb6).
  destruct lo, hi, lo', hi'. cbn [x y z] in *.
  split; f_equal; lra.
Qed.

(** A box is that of a set of points: empty for no point, else their
    extents. *)
Definition boxOf (pts : list Vector3) (b : Box3) : Prop :=
  match b with
  | Box3_empty => pts = []
  | Box3_mk lo hi => extentsOf pts lo hi
  end.

Ltac attained H p :=
  let q := fresh "q" in
  let Hq := fresh "Hq" in
  let Hv := fresh "Hv" in
  destruct H as (q & Hq & Hv);
  unfold Rmin, Rmax; destruct Rle_dec;
  first [ exists q; split; [apply in_or_app; left; exact Hq | exact Hv]
        | exists p; split; [apply in_or_app; right; left; reflexivity | reflexivity] ].

Lemma expandByPoint_boxOf pts b p :
  boxOf pts b -> boxOf (pts ++ [p]) (expandByPoint b p).
Proof.
  destruct b as [|lo hi]; cbn [boxOf expandByPoint].
  - intros ->. cbn [app]. unfold extentsOf. split.
    + intros q [<-|[]]. repeat split; apply Rle_refl.
    + repeat split; exists p; (split; [left; reflexivity | reflexivity]).
  - intros (Henc & Hxl & Hyl & Hzl & Hxh & Hyh & Hzh). unfold extentsOf. cbn [x y z].
    split; [|split; [|split; [|split; [|split; [|split]]]]].
    + intros q Hq. apply in_app_or in Hq as [Hq|[<-|[]]].
      * destruct (Henc q Hq) as ((? & ?) & (? & ?) & (? & ?)).
        unfold Rmin, Rmax. repeat destruct Rle_dec; repeat split; lra.
      * destruct Hxl as (q & Hq & ?). destruct (Henc q Hq) as ((? & ?) & (? & ?) & (? & ?)).
        destruct Hyl as (q' & Hq' & ?).
        destruct (Henc q' Hq') as ((? & ?) & (? & ?) & (? & ?)).
        destruct Hzl as (q'' & Hq'' & ?).
        destruct (Henc q'' Hq'') as ((? & ?) & (? & ?) & (? & ?)).
        unfold Rmin, Rmax. repeat destruct Rle_dec; repeat split; lra.
    + attained Hxl p.
    + attained Hyl p.
    + attained Hzl p.
    + attained Hxh p.
    + attained Hyh p.
    + attained Hzh p.
Qed.

Lemma fold_expand_boxOf l : forall pts b,
  boxOf pts b -> boxOf (pts ++ l) (fold_left expandByPoint l b).
Proof.
  induction l as [|p l IH]; intros pts b Hb.
  - rewrite app_nil_r. exact Hb.
  - cbn [fold_left]. replace (pts ++ p :: l) with ((pts ++ [p]) ++ l).
    + apply IH, expandByPoint_boxOf, Hb.
    + rewrite <- app_assoc. reflexivity.
Qed.

(** [setFromObject] gives the extents of the world points. *)
Lemma setFromObject_boxOf o : boxOf (worldPoints origin o) (setFromObject o).
Proof. apply (fold_expand_boxOf (worldPoints origin o) [] Box3_empty). reflexivity. Qed.

(** The largest of the reported dimensions. *)
Definition largest (d : Dimensions) : R := Rmax (Rmax (width d) (height d)) (depth d).

(** The snapshot of an object as loaded: no point, no extent and no
    translation; else the extents of its points and the translation by
    their midpoint. *)
Definition snapshotOf (o : Object3D) (d : Dimensions) (translation : Vector3) : Prop :=
  (worldPoints origin o = [] /\ d = mkDimensions 0 0 0 /\ translation = origin) \/
  (exists lo hi,
     extentsOf (worldPoints origin o) lo hi /\
     d = mkDimensions (x hi - x lo) (y hi - y lo) (z hi - z lo) /\
     translation =
       mkVector3 ((x lo + x hi) / 2) ((y lo + y hi) / 2) ((z lo + z hi) / 2)).

Lemma snapshot_taken o :
  snapshotOf o (dimensionsOf (snapshotSize o)) (getCenter (setFromObject o)).
Proof.
  pose proof (setFromObject_boxOf o) as H. unfold snapshotOf, snapshotSize.
  destruct (setFromObject o) as [|lo hi]; cbn [boxOf] in H.
  - left. split; [exact H|]. split; reflexivity.
  - right. exists lo, hi. split; [exact H|]. split; reflexivity.
Qed.

Lemma position_centred o :
  position (centred o) = sub (position o) (getCenter (setFromObject o)).
Proof. reflexivity. Qed.

Lemma framed_at size c :
  0 <= maxDimension size -> fov c = 75 ->
  cam_position (frameCamera size c) =
    mkVector3 0 (largest (dimensionsOf size) / 2)
      (largest (dimensionsOf size) / sin (fov75 / 2) * 2).
Proof.
  intros Hd Hf. unfold frameCamera. cbn zeta.
  cbn [updateProjectionMatrix setFar setNear lookAt setPosition cam_position].
  rewrite Hf. fold fov75. rewrite cameraDistance_formula;
    [reflexivity | exact Hd | apply fov75_range | apply fov75_range].
Qed.

(** C7, as the claim states it, fails: the load in which the texture
    fails and the material library and the geometry load is successful
    and reports the extents of the snapshot, but it computes no camera
    distance: the camera stays at (0, 2, 5), where the distance for the
    largest extent, 2, would have put it at height 1. *)
Lemma texture_failed_load_computes_no_distance :
  (exists md, loadState (run (envTextureFails triangle)) = Ready md /\
              dimensions md = dimensionsOf (snapshotSize triangle)) /\
  maxDimension (snapshotSize triangle) = 2 /\
  cam_position <$> camera (run (envTextureFails triangle)) = Some (mkVector3 0 2 5) /\
  cam_position <$> camera (run (envTextureFails triangle)) <>
    Some (mkVector3 0 (2 / 2) (2 / sin (fov75 / 2) * 2)).
Proof.
  split; [|split; [apply maxDimension_triangle|]].
  - rewrite run_InitOk by reflexivity. unfold loadModel, envTextureFails.
    cbn [texture mtl obj]. callbacks. eexists. split; reflexivity.
  - rewrite run_InitOk by reflexivity. unfold loadModel, envTextureFails.
    cbn [texture mtl obj]. callbacks. split; [reflexivity|].
    cbn [camera request mounted addTestCube createControls createCamera createScene
         sceneAdd setScene setStore setCamera fmap option_fmap option_map
         cam_position lookAt updateProjectionMatrix initialWorld].
    intros [= H]. lra.
Qed.

(** C7, amended: in every run that ends ready, the box is taken once,
    of the object as loaded, before the translation: its extents (the
    largest minus the smallest coordinate of the points, per axis) are
    the reported dimensions, and the node added to the scene sits at its
    old position minus the midpoint of the box.  The camera distance is
    computed from the same extents when texture, material library and
    geometry all loaded: the camera is then at
    (0, largest / 2, (largest / sin (fov / 2)) * 2) for the largest of
    the reported dimensions; in the other ready runs no distance is
    computed and the camera is the one [init] made. *)
Theorem one_snapshot_of_extents env md :
  initOutcome env = InitOk -> loadState (run env) = Ready md ->
  exists o node translation,
    obj env = Loaded o /\
    snapshotOf o (dimensions md) translation /\
    (exists sc, scene (run env) = Some sc /\ In (Model node) sc) /\
    position node = sub (position o) translation /\
    (forall tex m, texture env = Loaded tex -> mtl env = Loaded m ->
       exists c, camera (run env) = Some c /\
                 cam_position c =
                   mkVector3 0 (largest (dimensions md) / 2)
                     (largest (dimensions md) / sin (fov75 / 2) * 2)) /\
    ((forall tex m, ~ (texture env = Loaded tex /\ mtl env = Loaded m)) ->
     camera (run env) = Some (initialCamera (window env))).
Proof.
  intros Hi. rewrite (run_InitOk _ Hi). by_outcomes env. clear Hi.
  unfold loadModel. cbn [texture mtl obj].
  destruct tx as [tex|tmsg|], ml as [m|mmsg|], ob as [o|omsg|];
    callbacks; intros H; try discriminate H;
    apply loadState_ready_world in H; subst md;
    exists o; eexists; exists (getCenter (setFromObject o));
    (split; [reflexivity|]); (split; [apply snapshot_taken|]).
  - split; [eexists; split; [reflexivity|]; apply in_or_app; right; left; reflexivity|].
    split; [rewrite applyMaterial_position; apply position_centred|].
    split.
    + intros tex' m' _ _. eexists. split; [reflexivity|].
      apply framed_at; [apply maxDimension_nonneg | reflexivity].
    + intros Hn. destruct (Hn tex m). split; reflexivity.
  - split; [eexists; split; [reflexivity|]; apply in_or_app; right; left; reflexivity|].
    split; [rewrite applyMaterial_position; apply position_centred|].
    split; [intros; discriminate | intros _; reflexivity].
  - split; [eexists; split; [reflexivity|]; apply in_or_app; right; left; reflexivity|].
    split; [apply position_centred|].
    split; [intros; discriminate | intros _; reflexivity].
Qed.

Lemma one_snapshot_of_extents_witness :
  exists md translation,
    loadState (run (envAllLoaded triangle)) = Ready md /\
    snapshotOf triangle (dimensions md) translation.
Proof.
  destruct sample_run_ready as [md Hmd].
  destruct (one_snapshot_of_extents (envAllLoaded triangle) md eq_refl Hmd)
    as (o & node & t & Ho & Hs & _).
  injection Ho as <-. exists md, t. split; assumption.
Defined.

(** *** The cube, end to end *)

(** Decide the [Rmin]s and [Rmax]s of literals, innermost first. *)
Ltac eval_minmax :=
  repeat match goal with
    | |- context [Rmin ?a ?b] =>
        first [rewrite (Rmin_left a b) by lra | rewrite (Rmin_right a b) by lra]
    | |- context [Rmax ?a ?b] =>
        first [rewrite (Rmax_left a b) by lra | rewrite (Rmax_right a b) by lra]
    end.

Lemma snapshotSize_cube : dimensionsOf (snapshotSize cube) = mkDimensions 2 2 2.
Proof.
  unfold dimensionsOf, snapshotSize, setFromObject, cube, origin.
  cbn [worldPoints fold_left expandByPoint getSize flat_map map app add sub x y z].
  eval_minmax. f_equal; lra.
Qed.

Lemma maxDimension_cube : maxDimension (snapshotSize cube) = 2.
Proof.
  unfold maxDimension, snapshotSize, setFromObject, cube, origin.
  cbn [worldPoints fold_left expandByPoint getSize flat_map map app add sub x y z].
  eval_minmax. lra.
Qed.

(** The cube loads, on the full path, as 8 vertices, 12 faces, 1 material
    and extents 2 x 2 x 2, and the camera is put at height 1. *)
Example cube_end_to_end :
  exists md c,
    loadState (run (envAllLoaded cube)) = Ready md /\
    vertices md = 8%nat /\ faces md = ofNat 12 /\ materials md = 1%nat /\
    dimensions md = mkDimensions 2 2 2 /\
    camera (run (envAllLoaded cube)) = Some c /\
    x (cam_position c) = 0 /\ y (cam_position c) = 1.
Proof.
  rewrite run_InitOk by reflexivity. unfold loadModel, envAllLoaded.
  cbn [texture mtl obj]. callbacks. do 2 eexists.
  split; [reflexivity|]. cbn [vertices faces materials dimensions metadataOf].
  split; [vm_compute; reflexivity|]. split; [vm_compute; reflexivity|].
  split; [vm_compute; reflexivity|]. split; [apply snapshotSize_cube|].
  split; [reflexivity|].
  cbn [frameCamera updateProjectionMatrix setPosition setNear setFar lookAt
       cam_position x y].
  split; [reflexivity|].
  rewrite maxDimension_cube. lra.
Qed.

End Framing.

(** ** Mesh statistics: vertices, faces and what leaves them alone *)

Module Statistics.

Import Stdlib.Floats.PrimFloat.
Import THREE Viewer Graph Callbacks Samples Runs Faces RunFacts.

(** What one visited object adds to the vertex count. *)
Definition vertexContribution (child : Object3D) : nat :=
  if isMesh child then
    match geometry child with
    | Some geometry =>
        match position_attr geometry with
        | Some position => length position
        | None => 0
        end
    | None => 0
    end
  else 0.

Lemma fold_vertices l : forall acc,
  fold_left
    (fun count child =>
       if isMesh child then
         match geometry child with
         | Some geometry =>
             match position_attr geometry with
             | Some position => count + length position
             | None => count
             end
         | None => count
         end
       else count) l acc
  = acc + list_sum (map vertexContribution l).
Proof.
  induction l as [|c l IH]; intros acc; cbn [fold_left].
  - cbn. lia.
  - rewrite IH.
    change (list_sum (map vertexContribution (c :: l)))
      with (vertexContribution c + list_sum (map vertexContribution l)).
    unfold vertexContribution at 2.
    destruct (isMesh c); [|lia].
    destruct (geometry c) as [g|]; [|lia].
    destruct (position_attr g); lia.
Qed.

Lemma countVertices_sum o :
  countVertices o = list_sum (map vertexContribution (traverse o)).
Proof. unfold countVertices. rewrite fold_vertices. lia. Qed.

Lemma list_sum_flat_map (f : Object3D -> nat) cs :
  list_sum (map f (flat_map traverse cs)) =
  list_sum (map (fun c => list_sum (map f (traverse c))) cs).
Proof.
  induction cs as [|c cs IH]; [reflexivity|].
  cbn [flat_map map]. rewrite map_app, list_sum_app, IH. reflexivity.
Qed.

(** The vertex count is additive over the graph: an object counts its
    own positions (when it is a mesh) plus the counts of its children;
    a graph without meshes counts no vertex and no face, whatever
    geometry its points or lines carry. *)
Theorem countVertices_additive o :
  countVertices o = vertexContribution o + list_sum (map countVertices (children o)) /\
  (Forall (fun c => isMesh c = false) (traverse o) ->
   countVertices o = 0 /\ countFaces o = 0%float).
Proof.
  split.
  - rewrite countVertices_sum. destruct o as [m g mat p cs].
    cbn [traverse map children].
    change (list_sum (vertexContribution (mkObject3D m g mat p cs)
                        :: map vertexContribution (flat_map traverse cs)))
      with (vertexContribution (mkObject3D m g mat p cs)
            + list_sum (map vertexContribution (flat_map traverse cs))).
    rewrite list_sum_flat_map. f_equal. f_equal.
    apply map_ext. intros c. symmetry. apply countVertices_sum.
  - intros Hall. rewrite countVertices_sum, countFaces_fold.
    generalize 0%float as acc.
    induction Hall as [|c l Hc _ IH]; intros acc; [split; reflexivity|].
    cbn [map fold_left].
    change (list_sum (vertexContribution c :: map vertexContribution l))
      with (vertexContribution c + list_sum (map vertexContribution l)).
    unfold vertexContribution at 1. unfold addFaces at 2. rewrite Hc.
    apply IH.
Qed.

Lemma countVertices_additive_witness :
  countVertices (mkObject3D false (geometry quad) None origin []) = 0.
Proof.
  apply (countVertices_additive (mkObject3D false (geometry quad) None origin [])).
  repeat constructor.
Defined.

(** What [countFaces] reads of one visited object: the count it divides,
    if any. *)
Definition faceSource (c : Object3D) : option nat :=
  if isMesh c then
    match geometry c with
    | Some g =>
        match index g with
        | Some idx => Some (length idx)
        | None =>
            match position_attr g with
            | Some ps => Some (length ps)
            | None => None
            end
        end
    | None => None
    end
  else None.

Lemma addFaces_source acc c c' :
  faceSource c = faceSource c' -> addFaces acc c = addFaces acc c'.
Proof.
  unfold faceSource, addFaces.
  destruct (isMesh c), (isMesh c');
    destruct (geometry c) as [g|], (geometry c') as [g'|];
    try destruct (index g); try destruct (position_attr g);
    try destruct (index g'); try destruct (position_attr g');
    intros H; try discriminate H; try reflexivity;
    injection H as ->; reflexivity.
Qed.

Lemma fold_faces_source l : forall l' acc,
  map faceSource l = map faceSource l' ->
  fold_left addFaces l acc = fold_left addFaces l' acc.
Proof.
  induction l as [|c l IH]; intros [|c' l'] acc H; try discriminate H; [reflexivity|].
  cbn [map] in H. injection H as Hc Hl.
  cbn [fold_left]. rewrite (addFaces_source acc c c' Hc). apply IH, Hl.
Qed.

Lemma relevant_without_index l :
  Forall (fun c => forall g, geometry c = Some g -> index g = None) l ->
  map relevantCount l = map vertexContribution l.
Proof.
  induction 1 as [|c l Hc _ IH]; [reflexivity|].
  cbn [map]. rewrite IH. f_equal.
  unfold vertexContribution, relevantCount.
  destruct (isMesh c); [|reflexivity].
  destruct (geometry c) as [g|]; [|reflexivity].
  rewrite (Hc g eq_refl). reflexivity.
Qed.

(** Without index buffers, in a node of triangle meshes, the face count
    is the vertex count divided by 3, an integer; it need not be when
    the meshes are no triangle meshes: six meshes of one position each
    count 6 vertices and, with six rounded thirds added up, a face count
    just below 2.  With an index buffer the positions of a mesh play no
    part, the count depends on the index length alone, so that an empty
    index buffer reports no face however many vertices there are. *)
Theorem faces_from_index_or_positions :
  (forall o,
     Forall (fun c => forall g, geometry c = Some g -> index g = None) (traverse o) ->
     triangulated o -> (Z.of_nat (countVertices o) < 2 ^ 53)%Z ->
     countFaces o = ofNat (countVertices o / 3) /\
     3 * (countVertices o / 3) = countVertices o) /\
  (countVertices sixSingles = 6 /\
   countFaces sixSingles = 0x1.fffffffffffffp+0%float /\
   countFaces sixSingles <> ofNat (6 / 3)) /\
  (forall o o',
     map faceSource (traverse o) = map faceSource (traverse o') ->
     countFaces o = countFaces o') /\
  (forall ps mat p,
     countFaces (mkObject3D true (Some (mkBufferGeometry (Some []) ps)) mat p [])
     = 0%float).
Proof.
  split; [|split; [|split]].
  - intros o Hall Ht Hb.
    assert (Htot : relevantTotal o = countVertices o).
    { unfold relevantTotal. rewrite countVertices_sum, (relevant_without_index _ Hall).
      reflexivity. }
    pose proof (thirds_total (traverse o) Ht) as H3.
    fold (truncatedFaceCount o) in H3. fold (relevantTotal o) in H3.
    rewrite Htot in H3.
    assert (Hq : truncatedFaceCount o = countVertices o / 3).
    { rewrite <- H3. rewrite Nat.mul_comm, Nat.div_mul by discriminate. reflexivity. }
    rewrite <- Hq. split; [|exact H3].
    apply countFaces_triangulated; [exact Ht | rewrite Htot; exact Hb].
  - split; [reflexivity|]. split; [vm_compute; reflexivity|].
    intros H. apply (f_equal (fun f => eqb f (ofNat (6 / 3)))) in H.
    vm_compute in H. discriminate H.
  - intros o o' H. rewrite !countFaces_fold. apply fold_faces_source, H.
  - intros ps mat p. reflexivity.
Qed.

Lemma faces_from_index_or_positions_witness :
  countFaces facet = ofNat (countVertices facet / 3).
Proof.
  apply (proj1 faces_from_index_or_positions facet).
  - repeat constructor. intros g [= <-]. reflexivity.
  - repeat constructor.
  - vm_compute. reflexivity.
Defined.

(** What the two counts read of an object. *)
Definition shape (c : Object3D) : bool * option BufferGeometry :=
  (isMesh c, geometry c).

Lemma shape_applyMaterial params o : forall st,
  map shape (traverse (applyMaterial params o st).1) = map shape (traverse o).
Proof.
  induction o as [m g mat p cs IH] using Object3D_forall_ind. intros st.
  rewrite applyMaterial_unfold.
  assert (Hlist : forall s,
    map shape (flat_map traverse (applyMaterialList params cs s).1) =
    map shape (flat_map traverse cs)).
  { clear -IH. induction IH as [|c cs Hc _ IHcs]; intros s; [reflexivity|].
    cbn [applyMaterialList]. specialize (Hc s).
    destruct (applyMaterial params c s) as [c' s1]. cbn [fst] in Hc.
    specialize (IHcs s1).
    destruct (applyMaterialList params cs s1) as [cs' s2]. cbn [fst] in *.
    cbn [flat_map]. rewrite !map_app, Hc, IHcs. reflexivity. }
  destruct m.
  - specialize (Hlist (st ++ [params])).
    destruct (applyMaterialList params cs (st ++ [params])) as [cs' s2].
    cbn [fst] in *. cbn [traverse map]. rewrite Hlist. reflexivity.
  - specialize (Hlist st).
    destruct (applyMaterialList params cs st) as [cs' s2].
    cbn [fst] in *. cbn [traverse map]. rewrite Hlist. reflexivity.
Qed.

Lemma shape_centred o :
  map shape (traverse (centred o)) = map shape (traverse o).
Proof. destruct o as [m g mat p cs]. reflexivity. Qed.

Lemma countVertices_shape o o' :
  map shape (traverse o) = map shape (traverse o') ->
  countVertices o = countVertices o'.
Proof.
  intros H. rewrite !countVertices_sum.
  assert (Hm : forall l, map vertexContribution l =
                         map (fun s : bool * option BufferGeometry =>
                                if s.1 then
                                  match s.2 with
                                  | Some g =>
                                      match position_attr g with
                                      | Some ps => length ps
                                      | None => 0
                                      end
                                  | None => 0
                                  end
                                else 0) (map shape l)).
  { intros l. rewrite map_map. apply map_ext. intros a. reflexivity. }
  rewrite !Hm, H. reflexivity.
Qed.

Lemma countFaces_shape o o' :
  map shape (traverse o) = map shape (traverse o') ->
  countFaces o = countFaces o'.
Proof.
  unfold countFaces. generalize 0%float as acc.
  generalize (traverse o') as l'. generalize (traverse o) as l.
  induction l as [|c l IH]; intros [|c' l'] acc H; try discriminate; [reflexivity|].
  cbn [map] in H. unfold shape at 1 2 in H. injection H as Hm Hg Hl.
  cbn [fold_left]. rewrite Hm, Hg. apply IH, Hl.
Qed.

(** Centring the object and giving its meshes new materials change
    neither count: every run that ends ready reports the vertex and face
    counts of the object as the loader delivered it. *)
Theorem ready_run_reports_loaded_counts env md :
  initOutcome env = InitOk -> loadState (run env) = Ready md ->
  exists o, obj env = Loaded o /\
            vertices md = countVertices o /\ faces md = countFaces o.
Proof.
  intros Hi. rewrite (run_InitOk _ Hi). by_outcomes env. clear Hi.
  unfold loadModel. cbn [texture mtl obj].
  destruct tx as [tex|tmsg|], ml as [m|mmsg|], ob as [o|omsg|];
    callbacks; intros H; try discriminate H;
    apply loadState_ready_world in H; subst md;
    exists o; (split; [reflexivity|]); cbn [vertices faces metadataOf].
  - split; [apply countVertices_shape | apply countFaces_shape];
      rewrite shape_applyMaterial; apply shape_centred.
  - split; [apply countVertices_shape | apply countFaces_shape];
      rewrite shape_applyMaterial; apply shape_centred.
  - split; [apply countVertices_shape | apply countFaces_shape];
      apply shape_centred.
Qed.

Lemma ready_run_reports_loaded_counts_witness :
  exists md, loadState (run (envAllLoaded triangle)) = Ready md /\
             vertices md = countVertices triangle.
Proof.
  destruct sample_run_ready as [md Hmd]. exists md. split; [exact Hmd|].
  destruct (ready_run_reports_loaded_counts (envAllLoaded triangle) md eq_refl Hmd)
    as (o & Ho & Hv & _).
  injection Ho as <-. exact Hv.
Defined.

End Statistics.

(** ** Materials: what the meshes hold and what is reported *)

Module Materials.

Import THREE Viewer Graph Callbacks Samples Runs RunFacts.

Lemma size_list_to_set_le (l : list MaterialRef) :
  size (list_to_set l : gset MaterialRef) <= length l.
Proof.
  induction l as [|a l IH]; cbn [list_to_set length].
  - rewrite size_empty. lia.
  - rewrite size_union_alt, size_singleton.
    assert (size (list_to_set l ∖ {[a]} : gset MaterialRef) <= size (list_to_set l : gset MaterialRef))
      by (apply subseteq_size; set_solver).
    lia.
Qed.

Lemma length_meshMaterials o : length (meshMaterials o) <= meshCount o.
Proof.
  unfold meshMaterials, meshCount.
  induction (traverse o) as [|c l IH]; [reflexivity|].
  cbn [omap list_omap]. rewrite filter_cons.
  unfold meshMaterial at 1.
  destruct (isMesh c) eqn:E; case_decide; try congruence.
  destruct (material c); cbn [length]; lia.
Qed.

(** The second traversal counts distinct material objects, so the count
    never exceeds the number of meshes; meshes that share one material
    count once, and meshes without a material count nothing. *)
Theorem materialSet_bounds o :
  size (materialSet o) <= meshCount o /\
  (forall m,
     Forall (fun c => isMesh c = true -> material c = Some m) (traverse o) ->
     0 < meshCount o -> size (materialSet o) = 1) /\
  (Forall (fun c => isMesh c = true -> material c = None) (traverse o) ->
   size (materialSet o) = 0).
Proof.
  rewrite materialSet_list. split; [|split].
  - etransitivity; [apply size_list_to_set_le | apply length_meshMaterials].
  - intros m Hall Hpos.
    assert (Hset : (list_to_set (meshMaterials o) : gset MaterialRef) = {[ m ]}).
    { unfold meshMaterials, meshCount in *.
      induction Hall as [|c l Hc _ IH]; [cbn in Hpos; lia|].
      cbn [omap list_omap]. rewrite filter_cons in Hpos. unfold meshMaterial at 1.
      destruct (isMesh c) eqn:E; case_decide; try congruence.
      - rewrite (Hc eq_refl). cbn [list_to_set].
        destruct (filter (fun c0 => isMesh c0 = true) l) eqn:El.
        + assert (Hnil : omap meshMaterial l = []).
          { clear -El. induction l as [|a l IH]; [reflexivity|].
            rewrite filter_cons in El. cbn [omap list_omap]. unfold meshMaterial at 1.
            destruct (isMesh a) eqn:Ea; case_decide; try congruence; try discriminate.
            apply IH, El. }
          rewrite Hnil. cbn. set_solver.
        + rewrite IH by (cbn; lia). set_solver.
      - apply IH, Hpos. }
    rewrite Hset. apply size_singleton.
  - intros Hall.
    assert (Hnil : meshMaterials o = []).
    { unfold meshMaterials. induction Hall as [|c l Hc _ IH]; [reflexivity|].
      cbn [omap list_omap]. unfold meshMaterial at 1.
      destruct (isMesh c); [rewrite (Hc eq_refl)|]; exact IH. }
    rewrite Hnil. apply size_empty.
Qed.

Lemma materialSet_bounds_witness : size (materialSet twoMeshes) = 1.
Proof.
  apply (proj1 (proj2 (materialSet_bounds twoMeshes)) (FromLoader 1)).
  - repeat constructor; cbn; congruence.
  - vm_compute. lia.
Defined.

(** The materials constructed by [applyMaterial]: one copy of the options
    per mesh, appended to the store. *)
Lemma applyMaterial_store params o : forall st,
  (applyMaterial params o st).2 = st ++ replicate (meshCount o) params.
Proof.
  induction o as [m g mat p cs IH] using Object3D_forall_ind. intros st.
  rewrite applyMaterial_unfold, meshCount_unfold.
  assert (Hlist : forall s,
    (applyMaterialList params cs s).2 = s ++ replicate (meshCountList cs) params).
  { clear -IH. induction IH as [|c cs Hc _ IHcs]; intros s.
    - cbn. rewrite app_nil_r. reflexivity.
    - cbn [applyMaterialList]. specialize (Hc s).
      destruct (applyMaterial params c s) as [c' s1]. cbn [snd] in Hc.
      specialize (IHcs s1).
      destruct (applyMaterialList params cs s1) as [cs' s2]. cbn [snd] in *.
      rewrite meshCountList_cons, replicate_add, IHcs, Hc, app_assoc. reflexivity. }
  destruct m.
  - specialize (Hlist (st ++ [params])).
    destruct (applyMaterialList params cs (st ++ [params])) as [cs' s2].
    cbn [snd] in *. rewrite Hlist, <- app_assoc. reflexivity.
  - specialize (Hlist st).
    destruct (applyMaterialList params cs st) as [cs' s2].
    cbn [snd] in *. exact Hlist.
Qed.

(** Every mesh leaves [applyMaterial] with one of the materials
    constructed during the call. *)
Lemma applyMaterial_meshes params o : forall st,
  Forall (fun c => isMesh c = true ->
                   exists k, material c = Some (MeshPhongMaterial k) /\
                             length st <= k < length st + meshCount o)
    (traverse (applyMaterial params o st).1).
Proof.
  induction o as [m g mat p cs IH] using Object3D_forall_ind. intros st.
  rewrite applyMaterial_unfold, meshCount_unfold.
  assert (Hlist : forall s,
    Forall (fun c => isMesh c = true ->
                     exists k, material c = Some (MeshPhongMaterial k) /\
                               length s <= k < length s + meshCountList cs)
      (flat_map traverse (applyMaterialList params cs s).1)).
  { clear -IH. induction IH as [|c cs Hc _ IHcs]; intros s; [constructor|].
    cbn [applyMaterialList]. specialize (Hc s).
    pose proof (applyMaterial_store params c s) as Hs.
    destruct (applyMaterial params c s) as [c' s1]. cbn [fst snd] in Hc, Hs.
    specialize (IHcs s1).
    destruct (applyMaterialList params cs s1) as [cs' s2]. cbn [fst] in *.
    cbn [flat_map]. rewrite meshCountList_cons. apply Forall_app. split.
    - eapply Forall_impl; [exact Hc|]. intros a Ha Hm.
      destruct (Ha Hm) as (k & Hk & Hb). exists k. split; [exact Hk | lia].
    - eapply Forall_impl; [exact IHcs|]. intros a Ha Hm.
      destruct (Ha Hm) as (k & Hk & Hb). exists k. split; [exact Hk|].
      rewrite Hs, length_app, length_replicate in Hb. lia. }
  destruct m.
  - specialize (Hlist (st ++ [params])).
    destruct (applyMaterialList params cs (st ++ [params])) as [cs' s2].
    cbn [fst] in *. cbn [traverse]. constructor.
    + intros _. exists (length st). split; [reflexivity | lia].
    + eapply Forall_impl; [exact Hlist|]. intros a Ha Hm.
      destruct (Ha Hm) as (k & Hk & Hb). exists k. split; [exact Hk|].
      rewrite length_app in Hb. cbn [length] in Hb. lia.
  - specialize (Hlist st).
    destruct (applyMaterialList params cs st) as [cs' s2].
    cbn [fst] in *. cbn [traverse]. constructor.
    + cbn. discriminate.
    + eapply Forall_impl; [exact Hlist|]. intros a Ha Hm.
      destruct (Ha Hm) as (k & Hk & Hb). exists k. split; [exact Hk | lia].
Qed.

(** When the texture and the geometry load, every mesh of the node put
    in the scene holds a material that the component constructed with
    that texture as its map, each mesh one of its own; the store holds
    the test cube's material and one material per mesh. *)
Theorem textured_meshes_carry_texture env tex o :
  initOutcome env = InitOk -> texture env = Loaded tex -> mtl env <> Stalled ->
  obj env = Loaded o ->
  exists sc node,
    scene (run env) = Some sc /\ In (Model node) sc /\
    length (store (run env)) = 1 + meshCount o /\
    size (materialSet node) = meshCount o /\
    Forall (fun c => isMesh c = true ->
                     exists k params,
                       material c = Some (MeshPhongMaterial k) /\
                       store (run env) !! k = Some params /\
                       p_map params = Some tex)
      (traverse node).
Proof.
  intros Hi Ht Hm Ho. rewrite (run_InitOk _ Hi). by_outcomes env. subst.
  unfold loadModel. cbn [texture mtl obj].
  destruct ml as [m|msg|]; [| |congruence]; callbacks;
    rewrite !store_requested, !scene_requested;
    cbn [scene store fmap option_fmap option_map].
  - do 2 eexists. split; [reflexivity|].
    split; [apply in_or_app; right; left; reflexivity|].
    rewrite applyMaterial_store, length_app, length_replicate, meshCount_centred.
    split; [reflexivity|].
    split; [rewrite materialSet_applyMaterial; apply meshCount_centred|].
    eapply Forall_impl; [apply applyMaterial_meshes|].
    intros c Hc Hmesh. destruct (Hc Hmesh) as (k & Hk & Hb).
    rewrite meshCount_centred in Hb. cbn [length] in Hb.
    exists k, (texturedParams tex). split; [exact Hk|]. split; [|reflexivity].
    rewrite lookup_app_r by (cbn [length]; lia). apply lookup_replicate_2.
    cbn [length]. lia.
  - do 2 eexists. split; [reflexivity|].
    split; [apply in_or_app; right; left; reflexivity|].
    rewrite applyMaterial_store, length_app, length_replicate, meshCount_centred.
    split; [reflexivity|].
    split; [rewrite materialSet_applyMaterial; apply meshCount_centred|].
    eapply Forall_impl; [apply applyMaterial_meshes|].
    intros c Hc Hmesh. destruct (Hc Hmesh) as (k & Hk & Hb).
    rewrite meshCount_centred in Hb. cbn [length] in Hb.
    exists k, (fallbackParams tex). split; [exact Hk|]. split; [|reflexivity].
    rewrite lookup_app_r by (cbn [length]; lia). apply lookup_replicate_2.
    cbn [length]. lia.
Qed.

Lemma textured_meshes_carry_texture_witness :
  length (store (run (envAllLoaded twoMeshes))) = 3.
Proof.
  destruct (textured_meshes_carry_texture (envAllLoaded twoMeshes) someTexture
              twoMeshes eq_refl eq_refl) as (sc & node & _ & _ & H & _).
  - discriminate.
  - reflexivity.
  - exact H.
Defined.

(** On the fallback path the report is the constant 1 while the node in
    the scene holds one material per mesh: the report is the number of
    materials on the node exactly when the node has one mesh (a node
    without meshes is reported with one material). *)
Theorem fallback_report_ignores_meshes env tex msg o :
  initOutcome env = InitOk -> texture env = Loaded tex ->
  mtl env = Errored msg -> obj env = Loaded o ->
  exists md sc node,
    loadState (run env) = Ready md /\
    scene (run env) = Some sc /\ In (Model node) sc /\
    materials md = 1 /\
    (materials md = size (materialSet node) <-> meshCount o = 1).
Proof.
  intros Hi Ht Hm Ho. rewrite (run_InitOk _ Hi). by_outcomes env. subst.
  unfold loadModel. cbn [texture mtl obj]. callbacks.
  rewrite !scene_requested. do 3 eexists. split; [reflexivity|].
  cbn [scene fmap option_fmap option_map materials metadataOf].
  split; [reflexivity|]. split; [apply in_or_app; right; left; reflexivity|].
  split; [reflexivity|].
  rewrite materialSet_applyMaterial, meshCount_centred. split; congruence.
Qed.

Lemma fallback_report_ignores_meshes_witness :
  exists md, loadState (run (envMtlFails twoMeshes)) = Ready md /\ materials md = 1.
Proof.
  destruct (fallback_report_ignores_meshes (envMtlFails twoMeshes) someTexture
              "404" twoMeshes eq_refl eq_refl eq_refl eq_refl)
    as (md & sc & node & Hmd & _ & _ & H1 & _).
  exists md. split; assumption.
Defined.

End Materials.

(** ** Centring: the bounding box after the translation *)

Module Centering.

Import THREE Viewer Graph Callbacks Samples Runs Framing RunFacts.

Local Open Scope R_scope.

(** A box moved by [- v]. *)
Definition translate (v : Vector3) (b : Box3) : Box3 :=
  match b with
  | Box3_empty => Box3_empty
  | Box3_mk lo hi => Box3_mk (sub lo v) (sub hi v)
  end.

Lemma Rmin_shift a b c : Rmin (a - c) (b - c) = Rmin a b - c.
Proof. unfold Rmin. repeat destruct Rle_dec; lra. Qed.

Lemma Rmax_shift a b c : Rmax (a - c) (b - c) = Rmax a b - c.
Proof. unfold Rmax. repeat destruct Rle_dec; lra. Qed.

Lemma add_sub_shift h c q : add (sub h c) q = sub (add h q) c.
Proof. unfold add, sub. cbn [x y z]. f_equal; lra. Qed.

Lemma add_shift h p c : add h (sub p c) = sub (add h p) c.
Proof. unfold add, sub. cbn [x y z]. f_equal; lra. Qed.

Lemma expandByPoint_translate c b p :
  expandByPoint (translate c b) (sub p c) = translate c (expandByPoint b p).
Proof.
  destruct b as [|lo hi]; [reflexivity|].
  unfold translate, expandByPoint, sub. cbn [x y z].
  rewrite !Rmin_shift, !Rmax_shift. reflexivity.
Qed.

Lemma fold_expand_translate c l : forall b,
  fold_left expandByPoint (map (fun q => sub q c) l) (translate c b) =
  translate c (fold_left expandByPoint l b).
Proof.
  induction l as [|p l IH]; intros b; [reflexivity|].
  cbn [map fold_left]. rewrite expandByPoint_translate. apply IH.
Qed.

(** Moving the offset moves every world point. *)
Lemma worldPoints_shift c o : forall off,
  worldPoints (sub off c) o = map (fun q => sub q c) (worldPoints off o).
Proof.
  induction o as [m g mat p cs IH] using Object3D_forall_ind. intros off.
  cbn [worldPoints]. rewrite add_sub_shift, map_app. f_equal.
  - destruct g as [[i [ps|]]|]; try reflexivity.
    rewrite map_map. apply map_ext. intros q. apply add_sub_shift.
  - generalize (add off p) as here. intros here. clear -IH.
    induction IH as [|a cs Ha _ IHcs]; [reflexivity|].
    cbn [flat_map]. rewrite map_app, Ha, IHcs. reflexivity.
Qed.

Lemma worldPoints_centerObject c o :
  worldPoints origin (centerObject c o) =
  map (fun q => sub q c) (worldPoints origin o).
Proof.
  destruct o as [m g mat p cs]. unfold centerObject.
  cbn [isMesh geometry material position children worldPoints].
  rewrite add_shift, map_app. f_equal.
  - destruct g as [[i [ps|]]|]; try reflexivity.
    rewrite map_map. apply map_ext. intros q. apply add_sub_shift.
  - induction cs as [|a cs IH]; [reflexivity|].
    cbn [flat_map]. rewrite map_app, worldPoints_shift, IH. reflexivity.
Qed.

Lemma setFromObject_centerObject c o :
  setFromObject (centerObject c o) = translate c (setFromObject o).
Proof.
  unfold setFromObject. rewrite worldPoints_centerObject.
  apply (fold_expand_translate c _ Box3_empty).
Qed.

(** New materials leave the world points where they are. *)
Lemma worldPoints_applyMaterial params o : forall st off,
  worldPoints off (applyMaterial params o st).1 = worldPoints off o.
Proof.
  induction o as [m g mat p cs IH] using Object3D_forall_ind. intros st off.
  rewrite applyMaterial_unfold.
  assert (Hlist : forall s here,
    flat_map (worldPoints here) (applyMaterialList params cs s).1 =
    flat_map (worldPoints here) cs).
  { clear -IH. induction IH as [|c cs Hc _ IHcs]; intros s here; [reflexivity|].
    cbn [applyMaterialList]. specialize (Hc s here).
    destruct (applyMaterial params c s) as [c' s1]. cbn [fst] in Hc.
    specialize (IHcs s1 here).
    destruct (applyMaterialList params cs s1) as [cs' s2]. cbn [fst] in *.
    cbn [flat_map]. rewrite Hc, IHcs. reflexivity. }
  destruct m.
  - specialize (Hlist (st ++ [params]) (add off p)).
    destruct (applyMaterialList params cs (st ++ [params])) as [cs' s2].
    cbn [fst] in *. cbn [worldPoints]. rewrite Hlist. reflexivity.
  - specialize (Hlist st (add off p)).
    destruct (applyMaterialList params cs st) as [cs' s2].
    cbn [fst] in *. cbn [worldPoints]. rewrite Hlist. reflexivity.
Qed.

Lemma setFromObject_applyMaterial params o st :
  setFromObject (applyMaterial params o st).1 = setFromObject o.
Proof. unfold setFromObject. rewrite worldPoints_applyMaterial. reflexivity. Qed.

Lemma getSize_translate c b : getSize (translate c b) = getSize b.
Proof.
  destruct b as [|lo hi]; [reflexivity|].
  unfold translate, getSize, sub. cbn [x y z]. f_equal; lra.
Qed.

Lemma getCenter_translate_center b : getCenter (translate (getCenter b) b) = origin.
Proof.
  destruct b as [|lo hi]; [reflexivity|].
  unfold translate, getCenter, sub, origin. cbn [x y z]. f_equal; lra.
Qed.

(** The box of the centred object is the old box moved by its centre:
    the same extents, centred on the origin. *)
Lemma setFromObject_centred o :
  getSize (setFromObject (centred o)) = getSize (setFromObject o) /\
  getCenter (setFromObject (centred o)) = origin.
Proof.
  unfold centred. rewrite setFromObject_centerObject. split.
  - apply getSize_translate.
  - apply getCenter_translate_center.
Qed.

(** In every run that ends ready, the node in the scene is centred: its
    bounding box, taken again, has the origin as its centre and the
    reported dimensions as its extents. *)
Theorem ready_model_is_centred env md :
  initOutcome env = InitOk -> loadState (run env) = Ready md ->
  exists sc node,
    scene (run env) = Some sc /\ In (Model node) sc /\
    getCenter (setFromObject node) = origin /\
    dimensionsOf (getSize (setFromObject node)) = dimensions md.
Proof.
  intros Hi. rewrite (run_InitOk _ Hi). by_outcomes env. clear Hi.
  unfold loadModel. cbn [texture mtl obj].
  destruct tx as [tex|tmsg|], ml as [m|mmsg|], ob as [o|omsg|];
    callbacks; intros H; try discriminate H;
    apply loadState_ready_world in H; subst md;
    cbn [scene dimensions metadataOf];
    (do 2 eexists; split; [reflexivity|]);
    (split; [apply in_or_app; right; left; reflexivity|]);
    rewrite ?setFromObject_applyMaterial;
    destruct (setFromObject_centred o) as [Hs Hc]; rewrite Hs, Hc;
    split; reflexivity.
Qed.

Lemma ready_model_is_centred_witness :
  exists sc node,
    scene (run (envAllLoaded triangle)) = Some sc /\ In (Model node) sc /\
    getCenter (setFromObject node) = origin.
Proof.
  destruct sample_run_ready as [md Hmd].
  destruct (ready_model_is_centred (envAllLoaded triangle) md eq_refl Hmd)
    as (sc & node & Hsc & Hin & Hc & _).
  exists sc, node. repeat split; assumption.
Defined.

Lemma translate_origin b : translate origin b = b.
Proof.
  destruct b as [|[lx ly lz] [hx hy hz]]; [reflexivity|].
  unfold translate, sub, origin. cbn [x y z]. f_equal; f_equal; lra.
Qed.

Lemma translate_fixed b :
  b = translate (getCenter b) b <-> getCenter b = origin.
Proof.
  split.
  - destruct b as [|[lx ly lz] [hx hy hz]]; [reflexivity|].
    unfold translate, getCenter, sub, origin. cbn [x y z].
    intros [= Hx Hy Hz _ _ _]. f_equal; lra.
  - intros ->. symmetry. apply translate_origin.
Qed.

(** On the full path the two helpers are built from the box taken
    before the translation: the box helper shows that box, which is the
    box of the node in the scene exactly when the node needed no
    centring, and the wireframe cube sits at the node's new position. *)
Theorem helpers_show_untranslated_box env tex m o :
  initOutcome env = InitOk -> texture env = Loaded tex ->
  mtl env = Loaded m -> obj env = Loaded o ->
  exists sc node,
    scene (run env) = Some sc /\ In (Model node) sc /\
    In (Box3Helper (setFromObject o)) sc /\
    In (BoxMesh (getSize (setFromObject o)) true
          (sub (position o) (getCenter (setFromObject o)))) sc /\
    position node = sub (position o) (getCenter (setFromObject o)) /\
    (setFromObject o = setFromObject node <-> getCenter (setFromObject o) = origin).
Proof.
  intros Hi Ht Hm Ho. rewrite (run_InitOk _ Hi). by_outcomes env. subst.
  unfold loadModel. cbn [texture mtl obj]. callbacks.
  rewrite !scene_requested. cbn [scene fmap option_fmap option_map].
  do 2 eexists. split; [reflexivity|].
  split; [apply in_or_app; right; left; reflexivity|].
  split; [apply in_or_app; right; right; left; reflexivity|].
  rewrite applyMaterial_position.
  split; [apply in_or_app; right; right; right; left; reflexivity|].
  split; [reflexivity|].
  rewrite setFromObject_applyMaterial. unfold centred.
  rewrite setFromObject_centerObject. apply translate_fixed.
Qed.

Lemma helpers_show_untranslated_box_witness :
  exists sc, scene (run (envAllLoaded triangle)) = Some sc /\
             In (Box3Helper (setFromObject triangle)) sc.
Proof.
  destruct (helpers_show_untranslated_box (envAllLoaded triangle) someTexture
              someMaterials triangle eq_refl eq_refl eq_refl eq_refl)
    as (sc & node & Hsc & _ & Hb & _).
  exists sc. split; assumption.
Defined.

End Centering.

(** ** Where framing puts the camera *)

Module CameraBounds.

Import THREE Viewer Graph Callbacks Samples Runs Framing RunFacts.

Local Open Scope R_scope.

Lemma full_run_camera env tex m o :
  initOutcome env = InitOk -> texture env = Loaded tex ->
  mtl env = Loaded m -> obj env = Loaded o ->
  camera (run env) = Some (frameCamera (snapshotSize o) (initialCamera (window env))).
Proof.
  intros Hi Ht Hm Ho. rewrite (run_InitOk _ Hi). by_outcomes env. subst.
  unfold loadModel. cbn [texture mtl obj]. callbacks.
  rewrite camera_requested. reflexivity.
Qed.

Lemma framed_position size cam :
  cam_position (frameCamera size cam) =
    mkVector3 0 (maxDimension size / 2)
      (cameraDistance (maxDimension size) (fov cam * (PI / 180))).
Proof. reflexivity. Qed.

(** The distance is at least twice the largest extent: the sine is at
    most 1. *)
Lemma cameraDistance_lower d fov :
  0 <= d -> 0 < fov -> fov < PI -> 2 * d <= cameraDistance d fov.
Proof.
  intros Hd H0 H1. rewrite cameraDistance_formula by assumption.
  pose proof (sin_half_pos fov H0 H1) as Hs.
  pose proof (SIN_bound (fov / 2)) as [_ Hle].
  assert (H : 1 <= / sin (fov / 2)).
  { rewrite <- Rinv_1. apply Rinv_le_contravar; assumption. }
  unfold Rdiv. nra.
Qed.

(** After a full load the camera stands at least twice the largest
    extent in front of the origin, so in front of the centred model; a
    model whose largest extent reaches 500 puts the camera at or beyond
    its own far plane, the fixed 1000, away from the origin. *)
Theorem framed_camera_distance env tex m o :
  initOutcome env = InitOk -> texture env = Loaded tex ->
  mtl env = Loaded m -> obj env = Loaded o ->
  exists c,
    camera (run env) = Some c /\
    2 * maxDimension (snapshotSize o) <= z (cam_position c) /\
    (0 < maxDimension (snapshotSize o) ->
     z (snapshotSize o) / 2 < z (cam_position c)) /\
    (500 <= maxDimension (snapshotSize o) -> far c <= z (cam_position c)).
Proof.
  intros Hi Ht Hm Ho. rewrite (full_run_camera env tex m o Hi Ht Hm Ho).
  eexists. split; [reflexivity|].
  rewrite framed_position. cbn [z far frameCamera updateProjectionMatrix setFar].
  change (fov (initialCamera (window env)) * (PI / 180)) with fov75.
  pose proof (maxDimension_nonneg o) as Hd.
  pose proof fov75_range as [H0 H1].
  pose proof (cameraDistance_lower _ _ Hd H0 H1) as Hl.
  assert (Hz : z (snapshotSize o) <= maxDimension (snapshotSize o))
    by apply Rmax_r.
  repeat split; intros; lra.
Qed.

Lemma framed_camera_distance_witness :
  exists c, camera (run (envAllLoaded cube)) = Some c /\
            2 * maxDimension (snapshotSize cube) <= z (cam_position c).
Proof.
  destruct (framed_camera_distance (envAllLoaded cube) someTexture someMaterials cube
              eq_refl eq_refl eq_refl eq_refl) as (c & Hc & Hd & _).
  exists c. split; assumption.
Defined.

Lemma snapshotSize_no_points o :
  worldPoints origin o = [] -> snapshotSize o = origin.
Proof. unfold snapshotSize, setFromObject. intros ->. reflexivity. Qed.

Lemma maxDimension_origin : maxDimension origin = 0.
Proof.
  unfold maxDimension, origin. cbn [x y z]. unfold Rmax.
  repeat destruct Rle_dec; lra.
Qed.

(** A graph without vertex positions is reported with zero extents, and
    a full load of it puts the camera on the origin, the very point it
    is aimed at. *)
Theorem empty_model_camera_on_target env tex m o :
  initOutcome env = InitOk -> texture env = Loaded tex ->
  mtl env = Loaded m -> obj env = Loaded o ->
  worldPoints origin o = [] ->
  exists md c,
    loadState (run env) = Ready md /\
    dimensions md = mkDimensions 0 0 0 /\
    camera (run env) = Some c /\
    cam_position c = mkVector3 0 0 0 /\
    target c = Some (mkVector3 0 0 0).
Proof.
  intros Hi Ht Hm Ho He. rewrite (full_run_camera env tex m o Hi Ht Hm Ho).
  rewrite (run_InitOk _ Hi). by_outcomes env. subst.
  unfold loadModel. cbn [texture mtl obj]. callbacks.
  do 2 eexists. split; [reflexivity|].
  cbn [dimensions metadataOf]. rewrite (snapshotSize_no_points o He).
  split; [reflexivity|]. split; [reflexivity|].
  split; [|reflexivity].
  rewrite framed_position, maxDimension_origin. unfold cameraDistance, Rdiv.
  rewrite !Rmult_0_l, Rabs_R0, Rmult_0_l. reflexivity.
Qed.

Lemma empty_model_camera_on_target_witness :
  exists c, camera (run (envAllLoaded (mkObject3D false None None origin []))) = Some c /\
            cam_position c = mkVector3 0 0 0.
Proof.
  destruct (empty_model_camera_on_target
              (envAllLoaded (mkObject3D false None None origin [])) someTexture
              someMaterials (mkObject3D false None None origin [])
              eq_refl eq_refl eq_refl eq_refl eq_refl)
    as (md & c & _ & _ & Hc & Hp & _).
  exists c. split; assumption.
Defined.

Lemma snapshotSize_nonneg o :
  0 <= x (snapshotSize o) /\ 0 <= y (snapshotSize o) /\ 0 <= z (snapshotSize o).
Proof.
  unfold snapshotSize, setFromObject.
  apply getSize_nonneg, fold_expand_ordered. exact I.
Qed.

(** The reported width, height and depth of a run that ends ready are
    never negative, on any of the three paths. *)
Theorem reported_dimensions_nonneg env md :
  initOutcome env = InitOk -> loadState (run env) = Ready md ->
  0 <= width (dimensions md) /\ 0 <= height (dimensions md) /\
  0 <= depth (dimensions md).
Proof.
  intros Hi. rewrite (run_InitOk _ Hi). by_outcomes env. clear Hi.
  unfold loadModel. cbn [texture mtl obj].
  destruct tx as [tex|tmsg|], ml as [m|mmsg|], ob as [o|omsg|];
    callbacks; intros H; try discriminate H;
    apply loadState_ready_world in H; subst md;
    cbn [dimensions metadataOf width height depth];
    apply snapshotSize_nonneg.
Qed.

Lemma reported_dimensions_nonneg_witness :
  exists md, loadState (run (envAllLoaded triangle)) = Ready md /\
             0 <= width (dimensions md).
Proof.
  destruct sample_run_ready as [md Hmd]. exists md. split; [exact Hmd|].
  apply (reported_dimensions_nonneg (envAllLoaded triangle) md eq_refl Hmd).
Defined.

End CameraBounds.

(** ** What a run leaves in the state *)

Module Outcomes.

Import THREE Viewer Graph Callbacks Samples Runs Framing RunFacts.

Local Open Scope string_scope.

(** The three pieces of state behind the loading indicator, the error
    message and the metadata panel are set one at a time: a run is
    loading with neither error nor metadata, or it has stopped loading
    with an error (one of the five messages) and no metadata, or with
    metadata and no error. *)
Theorem status_is_exclusive env :
  (loading (run env) = true /\ error (run env) = None /\
   modelMetadata (run env) = None) \/
  (loading (run env) = false /\ modelMetadata (run env) = None /\
   exists msg, error (run env) = Some msg /\ In msg failureMessages) \/
  (loading (run env) = false /\ error (run env) = None /\
   exists md, modelMetadata (run env) = Some md).
Proof.
  unfold run, init. by_outcomes env.
  destruct io.
  - right; left. cbn. repeat split. eexists. split; [reflexivity|].
    unfold failureMessages. cbn. tauto.
  - left. repeat split.
  - right; left. cbn. repeat split. eexists. split; [reflexivity|].
    unfold failureMessages. cbn. tauto.
  - unfold loadModel. cbn [texture mtl obj].
    destruct tx, ml, ob; callbacks;
      first [ left; repeat split; reflexivity
            | right; right;
              split; [reflexivity|]; split; [reflexivity|]; eexists; reflexivity
            | right; left;
              split; [reflexivity|]; split; [reflexivity|]; eexists;
              (split; [reflexivity|]); unfold failureMessages; cbn; tauto ].
Qed.

(** The loaders are asked for the three files in one fixed order and
    for no file twice: the requests of a run are an initial part of
    texture, material library, geometry; when the set-up of [init]
    fails, nothing is requested at all. *)
Theorem requests_are_ordered env :
  requests (run env) `prefix_of` ["capsule0.jpg"; "capsule.mtl"; "capsule.obj"] /\
  NoDup (requests (run env)) /\
  (initOutcome env <> InitOk -> requests (run env) = []).
Proof.
  assert (Hp : requests (run env) `prefix_of`
                 ["capsule0.jpg"; "capsule.mtl"; "capsule.obj"]).
  { destruct (initOutcome env) eqn:Hi.
    - unfold run, init. rewrite Hi. apply prefix_nil.
    - unfold run, init. rewrite Hi. apply prefix_nil.
    - unfold run, init. rewrite Hi. apply prefix_nil.
    - rewrite (requests_run _ Hi). unfold requestsOf.
      destruct (texture env), (mtl env);
        first [ exists [] ; reflexivity
              | exists ["capsule.obj"]; reflexivity
              | exists ["capsule.mtl"; "capsule.obj"]; reflexivity ]. }
  split; [exact Hp|]. split.
  - destruct Hp as [k Hk].
    assert (Hn : NoDup ["capsule0.jpg"; "capsule.mtl"; "capsule.obj"]).
    { constructor; [intros H; apply list_elem_of_In in H; cbn in H; intuition discriminate|].
      constructor; [intros H; apply list_elem_of_In in H; cbn in H; intuition discriminate|].
      constructor; [intros H; apply list_elem_of_In in H; exact H | constructor]. }
    rewrite Hk in Hn. apply NoDup_app in Hn. apply Hn.
  - intros Hi. unfold run, init. destruct (initOutcome env); try reflexivity.
    congruence.
Qed.

Lemma requests_are_ordered_witness :
  requests (run (mkEnv NotMounted someWindow Stalled Stalled Stalled)) = [].
Proof.
  apply (requests_are_ordered (mkEnv NotMounted someWindow Stalled Stalled Stalled)).
  discriminate.
Defined.

(** A run that ends failed leaves no part of a model behind: the scene
    and the camera are as [init] made them, the only material
    constructed is the test cube's, and no metadata is set. *)
Theorem failed_run_leaves_init_state env msg :
  initOutcome env = InitOk -> loadState (run env) = Failed msg ->
  scene (run env) = Some defaultScene /\
  camera (run env) = Some (initialCamera (window env)) /\
  length (store (run env)) = 1 /\
  modelMetadata (run env) = None /\
  loading (run env) = false.
Proof.
  intros Hi. rewrite (run_InitOk _ Hi). by_outcomes env. clear Hi.
  unfold loadModel. cbn [texture mtl obj].
  destruct tx, ml, ob; callbacks; intros H; try discriminate H;
    repeat split.
Qed.

Lemma failed_run_leaves_init_state_witness :
  scene (run envObjFails) = Some defaultScene.
Proof.
  apply (failed_run_leaves_init_state envObjFails msgObjError); reflexivity.
Defined.

End Outcomes.

(** ** Resize, the animation loop and teardown *)

Module Lifecycle.

Import THREE Viewer Graph Callbacks Samples Runs RunFacts.

Local Open Scope R_scope.

(** The [WebGLRenderer] as far as the component drives it: the size given
    to [setSize] and whether [dispose] has been called. *)
Record WebGLRenderer : Type := mkRenderer {
  canvasSize : R * R;
  disposed : bool
}.

(** One mount of the component: the state of [Viewer] together with the
    other variables of the effect ([renderer], [controls], [frameId]) and
    what the browser holds for it: the animation frame request that is
    still pending, whether [mountRef.current] is set, whether it contains
    the renderer's canvas, and whether [handleResize] is registered on
    the window. *)
Record Mount : Type := mkMount {
  world : World;
  renderer : option WebGLRenderer;
  controls : bool;
  frameId : option nat;
  pendingFrame : option nat;
  mountCurrent : bool;
  canvasAttached : bool;
  resizeListener : bool
}.

Definition setWorld (w : World) (m : Mount) : Mount :=
  mkMount w (renderer m) (controls m) (frameId m) (pendingFrame m)
    (mountCurrent m) (canvasAttached m) (resizeListener m).

Definition setRenderer (r : option WebGLRenderer) (m : Mount) : Mount :=
  mkMount (world m) r (controls m) (frameId m) (pendingFrame m)
    (mountCurrent m) (canvasAttached m) (resizeListener m).

Definition setControls (b : bool) (m : Mount) : Mount :=
  mkMount (world m) (renderer m) b (frameId m) (pendingFrame m)
    (mountCurrent m) (canvasAttached m) (resizeListener m).

Definition setFrameId (f : option nat) (m : Mount) : Mount :=
  mkMount (world m) (renderer m) (controls m) f (pendingFrame m)
    (mountCurrent m) (canvasAttached m) (resizeListener m).

Definition setPendingFrame (f : option nat) (m : Mount) : Mount :=
  mkMount (world m) (renderer m) (controls m) (frameId m) f
    (mountCurrent m) (canvasAttached m) (resizeListener m).

Definition setCanvasAttached (b : bool) (m : Mount) : Mount :=
  mkMount (world m) (renderer m) (controls m) (frameId m) (pendingFrame m)
    (mountCurrent m) b (resizeListener m).

Definition setResizeListener (b : bool) (m : Mount) : Mount :=
  mkMount (world m) (renderer m) (controls m) (frameId m) (pendingFrame m)
    (mountCurrent m) (canvasAttached m) b.

(** React writes [mountRef.current]: the node while the [div] is
    mounted, null again when it unmounts the [div], which it does before
    it runs the cleanup of the effect. *)
Definition setMountCurrent (b : bool) (m : Mount) : Mount :=
  mkMount (world m) (renderer m) (controls m) (frameId m) (pendingFrame m)
    b (canvasAttached m) (resizeListener m).

(** A callback of the loaders, run on the state of the mount. *)
Definition onWorld (f : World -> World) (m : Mount) : Mount :=
  setWorld (f (world m)) m.

(** [camera.aspect = a] *)
Definition setAspect (a : R) (c : PerspectiveCamera) : PerspectiveCamera :=
  mkPerspectiveCamera (fov c) a (near c) (far c) (cam_position c) (target c)
    (projection c).

(** [handleResize], called with the window as it is now. *)
Definition handleResize (win : Window) (m : Mount) : Mount :=
  match renderer m, camera (world m), mountCurrent m with
  | Some r, Some c, true =>
      let c := setAspect (innerWidth win / innerHeight win) c in
      let c := updateProjectionMatrix c in
      let m := setWorld (setCamera (Some c) (world m)) m in
      setRenderer (Some (mkRenderer (innerWidth win, innerHeight win) (disposed r))) m
  | _, _, _ => m
  end.

(** A [resize] event of the window reaches [handleResize] while it is
    registered. *)
Definition resizeEvent (win : Window) (m : Mount) : Mount :=
  if resizeListener m then handleResize win m else m.

(** One run of [animate]; [id] is the handle that
    [requestAnimationFrame] returns.  Without user input
    [controls.update ()] aims the camera at the controls' target, the
    origin; [renderer.render] changes nothing that is modelled. *)
Definition animate (id : nat) (m : Mount) : Mount :=
  let m := setPendingFrame (Some id) (setFrameId (Some id) m) in
  if controls m then onWorld (fun w => setCamera (lookAt origin <$> camera w) w) m
  else m.

(** [cancelAnimationFrame (id)] *)
Definition cancelAnimationFrame (id : nat) (m : Mount) : Mount :=
  match pendingFrame m with
  | Some p => if Nat.eqb p id then setPendingFrame None m else m
  | None => m
  end.

(** The function the effect returns. *)
Definition cleanup (m : Mount) : Mount :=
  let m := setResizeListener false m in
  let m :=
    match frameId m with
    | Some id => if Nat.eqb id 0 then m else cancelAnimationFrame id m
    | None => m
    end in
  match renderer m with
  | Some r =>
      if mountCurrent m && canvasAttached m then
        let m := setCanvasAttached false m in
        setRenderer (Some (mkRenderer (canvasSize r) true)) m
      else m
  | None => m
  end.

(** [init] on a mount: what [Viewer.init] does to the state, and for a
    set-up that succeeds the renderer sized to the window, its canvas put
    into the mount node, the controls, the first [animate] and the
    registration of [handleResize]. *)
Definition mountInit (env : Env) (id : nat) (m : Mount) : Mount :=
  match initOutcome env with
  | InitOk =>
      let m := setRenderer
                 (Some (mkRenderer (innerWidth (window env), innerHeight (window env))
                          false)) m in
      let m := setCanvasAttached true m in
      let m := setControls true m in
      let m := onWorld (init env) m in
      let m := animate id m in
      setResizeListener true m
  | _ => onWorld (init env) m
  end.

(** The mount before the effect has run; [mountRef.current] is set
    unless the run is one in which [init] finds it null. *)
Definition freshMount (env : Env) : Mount :=
  mkMount initialWorld None false None None
    (match initOutcome env with NotMounted => false | _ => true end)
    false false.

(** What happens to a mount after [init]: the window is resized, or the
    browser runs the pending animation frame. *)
Inductive Event : Type :=
| Resize (win : Window)
| Frame (id : nat).

Definition step (m : Mount) (e : Event) : Mount :=
  match e with
  | Resize win => resizeEvent win m
  | Frame id => animate id m
  end.

(** The projection matrix of a camera is that of its parameters. *)
Definition projectionCurrent (c : PerspectiveCamera) : Prop :=
  projection c = (fov c, aspect c, near c, far c).

(** *** Resize *)

(** [handleResize] does nothing while the renderer, the camera or the
    mount node is missing.  Otherwise it gives the camera the aspect of
    the window and a projection matrix to match, and the renderer the
    size of the window, and leaves the pose of the camera, the scene and
    the load state alone; doing it twice is doing it once, and of two
    resizes the later one is the one that counts. *)
Theorem handleResize_behaviour win m :
  (renderer m = None \/ camera (world m) = None \/ mountCurrent m = false ->
   handleResize win m = m) /\
  (forall r c,
     renderer m = Some r -> camera (world m) = Some c -> mountCurrent m = true ->
     exists c',
       camera (world (handleResize win m)) = Some c' /\
       aspect c' = innerWidth win / innerHeight win /\
       projectionCurrent c' /\
       cam_position c' = cam_position c /\ target c' = target c /\
       fov c' = fov c /\ near c' = near c /\ far c' = far c /\
       renderer (handleResize win m) =
         Some (mkRenderer (innerWidth win, innerHeight win) (disposed r))) /\
  scene (world (handleResize win m)) = scene (world m) /\
  loadState (world (handleResize win m)) = loadState (world m) /\
  loading (world (handleResize win m)) = loading (world m) /\
  handleResize win (handleResize win m) = handleResize win m /\
  (forall win2, handleResize win2 (handleResize win m) = handleResize win2 m).
Proof.
  destruct m as [w r ct f pf mc ca rl]. destruct w as [md l e sc c st rq].
  unfold handleResize. cbn [renderer world camera mountCurrent].
  split; [|split].
  - intros [H|[H|H]]; cbn in H; subst; [reflexivity | | ].
    + destruct r; reflexivity.
    + destruct r, c; reflexivity.
  - intros r0 c0 -> -> ->. eexists. split; [reflexivity|]. repeat split.
  - destruct r as [r|], c as [c|], mc; repeat split.
Qed.

Lemma handleResize_behaviour_witness :
  handleResize someWindow
    (mkMount (mounted someWindow) (Some (mkRenderer (1, 1) false)) true None None
       false true true)
  = mkMount (mounted someWindow) (Some (mkRenderer (1, 1) false)) true None None
      false true true.
Proof.
  apply (proj1 (handleResize_behaviour someWindow
                  (mkMount (mounted someWindow) (Some (mkRenderer (1, 1) false)) true
                     None None false true true))).
  right; right. reflexivity.
Defined.

(** A resize and the completion of a load can come in either order: the
    result is the same, so the framing of the camera keeps the aspect of
    a resize that came first, and a later resize keeps the framing. *)
Theorem resize_commutes_with_load win m :
  (forall tex o,
     handleResize win (onWorld (objLoaded tex o) m) =
     onWorld (objLoaded tex o) (handleResize win m)) /\
  (forall tex o,
     handleResize win (onWorld (fallbackObjLoaded tex o) m) =
     onWorld (fallbackObjLoaded tex o) (handleResize win m)) /\
  (forall o,
     handleResize win (onWorld (objLoadedNoTexture o) m) =
     onWorld (objLoadedNoTexture o) (handleResize win m)) /\
  (forall msg,
     handleResize win (onWorld (fun w => setLoading false (setError msg w)) m) =
     onWorld (fun w => setLoading false (setError msg w)) (handleResize win m)).
Proof.
  destruct m as [w r ct f pf mc ca rl]. destruct w as [md l e sc c st rq].
  unfold handleResize, onWorld. cbn [renderer world camera mountCurrent setWorld].
  repeat split; intros.
  - destruct r as [r|], c as [c|], mc; cbn [world renderer camera mountCurrent setWorld setRenderer setCamera];
      rewrite !objLoaded_world; reflexivity.
  - destruct r as [r|], c as [c|], mc; cbn [world renderer camera mountCurrent setWorld setRenderer setCamera];
      rewrite !fallbackObjLoaded_world; reflexivity.
  - destruct r as [r|], c as [c|], mc; cbn [world renderer camera mountCurrent setWorld setRenderer setCamera];
      rewrite !objLoadedNoTexture_world; reflexivity.
  - destruct r as [r|], c as [c|], mc; reflexivity.
Qed.

(** *** The projection matrix *)

Lemma run_projectionCurrent env c :
  camera (run env) = Some c -> projectionCurrent c.
Proof.
  unfold run, init. by_outcomes env. destruct io.
  - discriminate.
  - discriminate.
  - intros [= <-]. reflexivity.
  - unfold loadModel. cbn [texture mtl obj].
    destruct tx, ml, ob; callbacks; rewrite ?camera_requested;
      intros [= <-]; reflexivity.
Qed.

Definition camerasCurrent (m : Mount) : Prop :=
  forall c, camera (world m) = Some c -> projectionCurrent c.

Lemma handleResize_camerasCurrent win m :
  camerasCurrent m -> camerasCurrent (handleResize win m).
Proof.
  destruct m as [w r ct f pf mc ca rl]. destruct w as [md l e sc c st rq].
  unfold camerasCurrent, handleResize. cbn [renderer world camera mountCurrent].
  intros H. destruct r as [r|], c as [c|], mc; try exact H.
  intros c' [= <-]. reflexivity.
Qed.

Lemma animate_camerasCurrent id m :
  camerasCurrent m -> camerasCurrent (animate id m).
Proof.
  destruct m as [w r ct f pf mc ca rl]. destruct w as [md l e sc c st rq].
  unfold camerasCurrent, animate. cbn. intros H. destruct ct; [|exact H].
  destruct c as [c|]; cbn; [|discriminate].
  intros c' [= <-]. unfold projectionCurrent. cbn. exact (H c eq_refl).
Qed.

Lemma mountInit_camerasCurrent env id :
  camerasCurrent (mountInit env id (freshMount env)).
Proof.
  unfold mountInit. destruct (initOutcome env) eqn:Hi.
  - intros c. cbn [onWorld setWorld world freshMount].
    change (init env initialWorld) with (run env). apply run_projectionCurrent.
  - intros c. cbn [onWorld setWorld world freshMount].
    change (init env initialWorld) with (run env). apply run_projectionCurrent.
  - intros c. cbn [onWorld setWorld world freshMount].
    change (init env initialWorld) with (run env). apply run_projectionCurrent.
  - intros c. unfold animate.
    cbn [onWorld setWorld world freshMount setRenderer setCanvasAttached setControls
         setFrameId setPendingFrame setResizeListener controls renderer frameId
         pendingFrame mountCurrent canvasAttached resizeListener camera setCamera].
    change (init env initialWorld) with (run env).
    destruct (camera (run env)) as [c0|] eqn:Hc; [|discriminate].
    intros [= <-]. unfold projectionCurrent. cbn.
    exact (run_projectionCurrent env c0 Hc).
Qed.

(** Whatever resizes and animation frames follow [init], in whatever
    order, with the load finished on any path, the projection matrix of
    the camera is the one of its current field of view, aspect, near and
    far: no path sets a parameter without recomputing it. *)
Theorem projection_stays_current env id events c :
  camera (world (fold_left step events (mountInit env id (freshMount env)))) = Some c ->
  projectionCurrent c.
Proof.
  assert (H : forall evs m, camerasCurrent m -> camerasCurrent (fold_left step evs m)).
  { induction evs as [|e evs IH]; intros m Hm; [exact Hm|].
    cbn [fold_left]. apply IH. destruct e as [win|k]; cbn [step].
    - unfold resizeEvent. destruct (resizeListener m); [|exact Hm].
      apply handleResize_camerasCurrent, Hm.
    - apply animate_camerasCurrent, Hm. }
  apply (H events _ (mountInit_camerasCurrent env id)).
Qed.

Lemma projection_stays_current_witness :
  exists c,
    camera (world (fold_left step [Resize (mkWindow 4 3); Frame 2]
                     (mountInit envObjFails 1 (freshMount envObjFails)))) = Some c /\
    projectionCurrent c.
Proof.
  eexists. split; [reflexivity|].
  apply (projection_stays_current envObjFails 1 [Resize (mkWindow 4 3); Frame 2]).
  reflexivity.
Defined.

(** *** Teardown *)

(** A mount whose set-up succeeded and that has not been torn down. *)
Definition running (m : Mount) : Prop :=
  (exists r, renderer m = Some r /\ disposed r = false) /\
  mountCurrent m = true /\ canvasAttached m = true /\ resizeListener m = true /\
  exists k, k <> 0%nat /\ frameId m = Some k /\ pendingFrame m = Some k.

Definition framesNonzero (events : list Event) : Prop :=
  Forall (fun e => match e with Frame i => i <> 0%nat | Resize _ => True end) events.

Lemma mountInit_running env id :
  initOutcome env = InitOk -> id <> 0%nat -> running (mountInit env id (freshMount env)).
Proof.
  intros Hi Hid. unfold mountInit, freshMount, animate. rewrite Hi.
  cbn [onWorld setWorld world setRenderer setCanvasAttached setControls
       setFrameId setPendingFrame setResizeListener controls renderer frameId
       pendingFrame mountCurrent canvasAttached resizeListener].
  repeat split; eauto.
Qed.

Lemma step_running m e :
  match e with Frame i => i <> 0%nat | Resize _ => True end ->
  running m -> running (step m e).
Proof.
  destruct m as [w r ct f pf mc ca rl]. unfold running.
  cbn [renderer mountCurrent canvasAttached resizeListener frameId pendingFrame].
  intros He ((r0 & -> & Hd) & -> & -> & -> & k & Hk & -> & ->).
  destruct e as [win|i]; cbn [step].
  - unfold resizeEvent, handleResize.
    cbn [renderer mountCurrent canvasAttached resizeListener frameId pendingFrame world].
    destruct (camera w);
      cbn [renderer mountCurrent canvasAttached resizeListener frameId pendingFrame
           setRenderer setWorld disposed]; repeat split; eauto.
  - unfold animate.
    cbn [renderer mountCurrent canvasAttached resizeListener frameId pendingFrame
         setFrameId setPendingFrame controls].
    destruct ct; cbn; repeat split; eauto.
Qed.

Lemma fold_running events : forall m,
  framesNonzero events -> running m -> running (fold_left step events m).
Proof.
  induction events as [|e evs IH]; intros m Hf Hm; [exact Hm|].
  apply Forall_cons in Hf as [He Hf]. cbn [fold_left].
  apply IH; [exact Hf|]. apply step_running; assumption.
Qed.

(** Teardown of a running mount, after any resizes and animation frames,
    with [mountRef.current] as React has left it.  Either way
    [handleResize] is unregistered, so that later resize events do
    nothing, the pending animation frame is cancelled, which ends the
    loop, the state, with the scene, is left as it was, and a second
    teardown changes nothing.  The canvas is taken out of the mount node
    and the renderer disposed only if [mountRef.current] is still set
    (the effect is re-run on a mounted component); when React has
    cleared it (the component unmounts), the canvas stays in the node and
    the renderer is not disposed. *)
Theorem teardown_after_init env id events current :
  initOutcome env = InitOk -> id <> 0%nat -> framesNonzero events ->
  let m := fold_left step events (mountInit env id (freshMount env)) in
  let t := cleanup (setMountCurrent current m) in
  mountCurrent m = true /\
  resizeListener t = false /\
  pendingFrame t = None /\
  canvasAttached t = negb current /\
  (exists r, renderer t = Some r /\ disposed r = current) /\
  world t = world m /\
  (forall win, resizeEvent win t = t) /\
  cleanup t = t.
Proof.
  intros Hi Hid Hf m.
  assert (Hr : running m) by (apply fold_running; [exact Hf | apply mountInit_running; assumption]).
  clearbody m. destruct m as [w r ct f pf mc ca rl]. unfold running in Hr.
  cbn [renderer mountCurrent canvasAttached resizeListener frameId pendingFrame] in Hr.
  destruct Hr as ((r0 & -> & Hd) & -> & -> & -> & k & Hk & -> & ->).
  unfold cleanup, cancelAnimationFrame, setMountCurrent.
  cbn [renderer mountCurrent canvasAttached resizeListener frameId pendingFrame
       setResizeListener world controls].
  destruct (Nat.eqb_spec k 0) as [E|_]; [contradiction|].
  cbn [renderer mountCurrent canvasAttached resizeListener frameId pendingFrame
       setResizeListener setPendingFrame].
  rewrite Nat.eqb_refl.
  destruct current; cbn;
    (destruct (Nat.eqb_spec k 0) as [E|_]; [contradiction|]); cbn;
    repeat split; eexists; split; (reflexivity || exact Hd).
Qed.

Lemma teardown_after_init_witness :
  pendingFrame (cleanup (setMountCurrent false
                  (fold_left step [Frame 2; Resize (mkWindow 4 3); Frame 3]
                     (mountInit envObjFails 1 (freshMount envObjFails))))) = None /\
  canvasAttached (cleanup (setMountCurrent false
                    (fold_left step [Frame 2; Resize (mkWindow 4 3); Frame 3]
                       (mountInit envObjFails 1 (freshMount envObjFails))))) = true.
Proof.
  destruct (teardown_after_init envObjFails 1 [Frame 2; Resize (mkWindow 4 3); Frame 3]
              false) as (_ & _ & Hp & Hc & _).
  - reflexivity.
  - discriminate.
  - repeat constructor; discriminate.
  - split; [exact Hp | exact Hc].
Defined.

(** What teardown does not do.  When [mountRef.current] is already null
    the canvas stays where it is and the renderer is never disposed; a
    frame handle of 0 is not cancelled; and teardown neither reads nor
    writes the state of the loads, so a loader callback that runs after
    it acts exactly as before it: nothing cancels a load in flight. *)
Theorem teardown_limits m :
  (mountCurrent m = false ->
   renderer (cleanup m) = renderer m /\
   canvasAttached (cleanup m) = canvasAttached m) /\
  (frameId m = Some 0%nat -> pendingFrame (cleanup m) = pendingFrame m) /\
  (forall f, cleanup (onWorld f m) = onWorld f (cleanup m)) /\
  (forall f, world (onWorld f (cleanup m)) = f (world m)).
Proof.
  destruct m as [w r ct f pf mc ca rl].
  unfold cleanup, cancelAnimationFrame, onWorld.
  cbn [renderer mountCurrent canvasAttached resizeListener frameId pendingFrame
       setResizeListener world setWorld].
  split; [|split; [|split]].
  - intros ->. destruct f as [k|]; [destruct (Nat.eqb k 0)|];
      repeat (destruct pf as [p|]; [destruct (Nat.eqb p k)|]);
      destruct r; cbn; split; reflexivity.
  - intros ->. cbn. destruct r; [destruct (mc && ca)|]; reflexivity.
  - intros g. destruct f as [k|]; [destruct (Nat.eqb k 0)|];
      try (destruct pf as [p|]; [destruct (Nat.eqb p k)|]);
      destruct r; cbn; try destruct (mc && ca); reflexivity.
  - intros g. destruct f as [k|]; [destruct (Nat.eqb k 0)|];
      try (destruct pf as [p|]; [destruct (Nat.eqb p k)|]);
      destruct r; cbn; try destruct (mc && ca); reflexivity.
Qed.

Lemma teardown_limits_witness :
  renderer (cleanup (mkMount initialWorld (Some (mkRenderer (1, 1) false)) true
                       (Some 1%nat) (Some 1%nat) false true true))
  = Some (mkRenderer (1, 1) false).
Proof.
  apply (proj1 (teardown_limits
                  (mkMount initialWorld (Some (mkRenderer (1, 1) false)) true
                     (Some 1%nat) (Some 1%nat) false true true))).
  reflexivity.
Defined.

(** A teardown that runs before [init] has got past its awaited imports
    finds nothing to release, and [init] does not look back: it sets up
    the renderer, the animation loop and the resize listener as if no
    teardown had happened, and they stay. *)
Theorem teardown_before_init_is_lost env id :
  initOutcome env = InitOk ->
  mountInit env id (cleanup (freshMount env)) = mountInit env id (freshMount env) /\
  resizeListener (mountInit env id (cleanup (freshMount env))) = true /\
  pendingFrame (mountInit env id (cleanup (freshMount env))) = Some id /\
  canvasAttached (mountInit env id (cleanup (freshMount env))) = true /\
  exists r, renderer (mountInit env id (cleanup (freshMount env))) = Some r /\
            disposed r = false.
Proof.
  intros Hi. unfold mountInit, freshMount, cleanup, animate. rewrite Hi.
  cbn [renderer mountCurrent canvasAttached resizeListener frameId pendingFrame
       setResizeListener world setWorld onWorld setRenderer setCanvasAttached
       setControls setFrameId setPendingFrame controls].
  repeat split. eexists. split; reflexivity.
Qed.

Lemma teardown_before_init_is_lost_witness :
  resizeListener (mountInit envObjFails 1 (cleanup (freshMount envObjFails))) = true.
Proof.
  apply (teardown_before_init_is_lost envObjFails 1). reflexivity.
Defined.

End Lifecycle.

(** ** next.config.ts: the webpack hook *)

Module NextConfig.

Local Open Scope string_scope.

(** The part of the webpack configuration the hook touches:
    [config.resolve.alias], an object or undefined, and
    [config.resolve.extensions], an array or undefined. *)
Record WebpackConfig : Type := mkWebpackConfig {
  alias : option (gmap string string);
  extensions : option (list string)
}.

(** [webpack: (config) => { ... return config; }].  [threePath] is what
    [path.resolve ('./node_modules/three')] returns in the working
    directory of the build. *)
Definition webpack (threePath : string) (config : WebpackConfig) : WebpackConfig :=
  mkWebpackConfig
    (Some (<["three" := threePath]> (default ∅ (alias config))))
    (Some (default [] (extensions config) ++ [".js"])%list).

(** The hook points the alias [three] at the resolved directory, over
    any alias of that name, and keeps every other alias; applying it
    again, or after a run with another directory, gives the same
    aliases. *)
Theorem webpack_alias threePath config :
  exists a,
    alias (webpack threePath config) = Some a /\
    a !! "three" = Some threePath /\
    (forall k, k <> "three" -> a !! k = default ∅ (alias config) !! k) /\
    alias (webpack threePath (webpack threePath config)) = Some a /\
    (forall other, alias (webpack threePath (webpack other config)) = Some a).
Proof.
  eexists. split; [reflexivity|]. split; [apply lookup_insert_eq|]. split.
  - intros k Hk. apply lookup_insert_ne. congruence.
  - split; [|intros other]; cbn [webpack alias default]; f_equal;
      apply insert_insert_eq.
Qed.

(** The hook appends [.js] to the extensions, keeping those already
    there in their order and not looking whether [.js] is among them: n
    applications leave n more entries, so the hook is not idempotent. *)
Theorem webpack_extensions threePath config n :
  extensions (Nat.iter (S n) (webpack threePath) config) =
    Some (default [] (extensions config) ++ replicate (S n) ".js")%list /\
  webpack threePath (webpack threePath config) <> webpack threePath config.
Proof.
  split.
  - induction n as [|n IH]; [reflexivity|].
    change (Nat.iter (S (S n)) (webpack threePath) config)
      with (webpack threePath (Nat.iter (S n) (webpack threePath) config)).
    cbn [webpack extensions]. rewrite IH. cbn [default]. f_equal.
    rewrite (replicate_S_end (S n)), app_assoc. reflexivity.
  - intros H. apply (f_equal extensions) in H. cbn [webpack extensions default] in H.
    injection H as H. apply (f_equal length) in H.
    rewrite !length_app in H. cbn [length] in H. lia.
Qed.

End NextConfig.
